(** * Title Master Report parsing (dataloader/tmreport.py)

    A shallow embedding of the [TitleMasterReport] class: the report
    identity accessors ([begin_date], [end_date], [title_type]), the header
    derivation ([_header_row]), the probes of the data region ([data_rows],
    [data_cols]) and the row extraction ([get_row]).

    Conventions of the embedding.
    - A Python [str] is a [string] whose characters are code points below
      256: an [ascii] holds the number of one character (not a byte of an
      encoding), so that positions are Python's. The case mapping, the
      identifier characters and the white space are Python's for all of
      these code points.
    - A cell value is a [pyval]; the worksheet is the dictionary of its
      cells, keyed by 1-based (row, column); an absent cell reads as [None].
    - A Python exception is a constructor of [exn]; a computation that may
      raise returns a [result].
    - The library calls the class makes ([str] methods, [int], slices,
      [collections.namedtuple], the sheet's [iter_cols]) are modelled with
      their Python 3 behaviour, to the extent the class uses them. *)

From Stdlib Require Import ZArith String Ascii List Lia DecimalString.
From stdpp Require Import base option list gmap strings.

Local Open Scope string_scope.
Local Open Scope Z_scope.

(** ** Exceptions and the error monad *)

Inductive exn : Set :=
  | KeyError | IndexError | ValueError | TypeError | AttributeError.

Inductive result (A : Type) : Type :=
  | Ok (a : A)
  | Raise (e : exn).
Arguments Ok {A} a.
Arguments Raise {A} e.

(** Sequencing: the first exception raised ends the computation. The
    instances give [x ← m; k] for it. *)
#[global] Instance result_bind : MBind result := fun A B k m =>
  match m with
  | Ok a => k a
  | Raise e => Raise e
  end.
#[global] Instance result_ret : MRet result := fun A a => Ok a.

Definition succeeds {A} (m : result A) : Prop := exists a, m = Ok a.
Definition fails {A} (m : result A) : Prop := exists e, m = Raise e.

(** ** Python values found in cells *)

Module Py.

(** The value of a cell as openpyxl hands it over with [data_only=True].
    [VOther] stands for the remaining kinds (floats, dates, ...) and carries
    the text that [str()] gives for the value. *)
Inductive pyval : Type :=
  | VNone
  | VStr (s : string)
  | VInt (z : Z)
  | VBool (b : bool)
  | VOther (repr : string).

Definition is_none (v : pyval) : bool :=
  match v with VNone => true | _ => false end.

(** *** Characters *)

(** The characters [str.lower] changes: [A] to [Z] and, above 127, the
    capital letters 192 to 222 without the multiplication sign 215. Each is
    32 below its small letter. *)
Definition is_upper (c : ascii) : bool :=
  let n := nat_of_ascii c in
  ((Nat.leb 65 n && Nat.leb n 90)
   || (Nat.leb 192 n && Nat.leb n 214)
   || (Nat.leb 216 n && Nat.leb n 222))%bool.

Definition is_alpha (c : ascii) : bool :=
  let n := nat_of_ascii c in
  ((Nat.leb 65 n && Nat.leb n 90) || (Nat.leb 97 n && Nat.leb n 122))%bool.

Definition is_digit (c : ascii) : bool :=
  let n := nat_of_ascii c in (Nat.leb 48 n && Nat.leb n 57)%bool.

(** The white space [int] skips around a number: tab to carriage return
    and the blank, and, above 127, the next-line character 133 and the
    no-break space 160, which [int] first turns into blanks. *)
Definition is_space (c : ascii) : bool :=
  let n := nat_of_ascii c in
  ((Nat.leb 9 n && Nat.leb n 13) || Nat.eqb n 32
   || Nat.eqb n 133 || Nat.eqb n 160)%bool.

Definition lower_char (c : ascii) : ascii :=
  if is_upper c then ascii_of_nat (nat_of_ascii c + 32) else c.

Definition digit_value (c : ascii) : Z := Z.of_nat (nat_of_ascii c) - 48.

(** *** [str] methods *)

(** [s.lower()] *)
Fixpoint lower (s : string) : string :=
  match s with
  | EmptyString => EmptyString
  | String c s' => String (lower_char c) (lower s')
  end.

(** [s.split(sep)] for a one-character separator: the result always has at
    least one entry. *)
Fixpoint split (sep : ascii) (s : string) : list string :=
  match s with
  | EmptyString => [EmptyString]
  | String c s' =>
      if Ascii.eqb c sep then EmptyString :: split sep s'
      else match split sep s' with
           | w :: ws => String c w :: ws
           | [] => [String c EmptyString]
           end
  end.

(** [s.replace(c, '')] for a one-character [c] *)
Fixpoint remove_char (c : ascii) (s : string) : string :=
  match s with
  | EmptyString => EmptyString
  | String a s' =>
      if Ascii.eqb a c then remove_char c s' else String a (remove_char c s')
  end.

(** Membership of a character, used to say that an entry has no [=]. *)
Fixpoint has_char (c : ascii) (s : string) : bool :=
  match s with
  | EmptyString => false
  | String a s' => (Ascii.eqb a c || has_char c s')%bool
  end.

(** *** Slices *)

(** A slice bound as Python normalises it against the length: a negative
    bound counts from the end, and both ends are clamped. *)
Definition clamp_index (len i : Z) : Z :=
  if i <? 0 then Z.max 0 (i + len) else Z.min i len.

(** [l[lo:hi]] *)
Definition slice {A} (lo hi : Z) (l : list A) : list A :=
  let n := Z.of_nat (length l) in
  let lo' := clamp_index n lo in
  let hi' := clamp_index n hi in
  take (Z.to_nat (hi' - lo')) (drop (Z.to_nat lo') l).

(** [s[lo:hi]] *)
Definition str_slice (lo hi : Z) (s : string) : string :=
  string_of_list_ascii (slice lo hi (list_ascii_of_string s)).

(** [l[i]] for a non-negative constant index *)
Definition index {A} (l : list A) (i : nat) : result A :=
  match l !! i with
  | Some a => Ok a
  | None => Raise IndexError
  end.

(** *** [int(s)] and [str(v)] *)

Fixpoint strip_left (l : list ascii) : list ascii :=
  match l with
  | c :: l' => if is_space c then strip_left l' else l
  | [] => []
  end.

Definition strip (l : list ascii) : list ascii :=
  rev (strip_left (rev (strip_left l))).

(** The digits of a decimal literal; a single underscore may stand between
    two digits. [after_digit] tells whether the previous character was a
    digit. *)
Fixpoint parse_digits (acc : Z) (after_digit : bool) (l : list ascii)
  : option Z :=
  match l with
  | [] => if after_digit then Some acc else None
  | c :: l' =>
      if is_digit c then parse_digits (10 * acc + digit_value c) true l'
      else if Ascii.eqb c "_" then
        if after_digit then parse_digits acc false l' else None
      else None
  end.

Definition parse_int (s : string) : option Z :=
  match strip (list_ascii_of_string s) with
  | c :: l =>
      if Ascii.eqb c "-" then Z.opp <$> parse_digits 0 false l
      else if Ascii.eqb c "+" then parse_digits 0 false l
      else parse_digits 0 false (c :: l)
  | [] => None
  end.

(** [int(s)] on a [str] *)
Definition int (s : string) : result Z :=
  match parse_int s with
  | Some z => Ok z
  | None => Raise ValueError
  end.

(** [str(v)] on a value that is not [None] (for [None] it is the text
    [None], which the program never asks for). *)
Definition str (v : pyval) : string :=
  match v with
  | VNone => "None"
  | VStr s => s
  | VInt z => NilZero.string_of_int (Z.to_int z)
  | VBool b => if b then "True" else "False"
  | VOther repr => repr
  end.

(** [max(l)] on a list of integers *)
Definition max (l : list Z) : result Z :=
  match l with
  | [] => Raise ValueError
  | x :: l' => Ok (foldl Z.max x l')
  end.

End Py.
Import Py.

(** ** The standard library's named tuples *)

Module Collections.

(** The reserved words, which [namedtuple] refuses as names. *)
Definition kwlist : list string :=
  ["False"; "None"; "True"; "and"; "as"; "assert"; "async"; "await";
   "break"; "class"; "continue"; "def"; "del"; "elif"; "else"; "except";
   "finally"; "for"; "from"; "global"; "if"; "import"; "in"; "is";
   "lambda"; "nonlocal"; "not"; "or"; "pass"; "raise"; "return"; "try";
   "while"; "with"; "yield"].

Definition iskeyword (s : string) : bool := bool_decide (s ∈ kwlist).

(** The characters that may start an identifier: the letters, the
    underscore and, above 127, the letters 170, 181, 186, 192 to 214, 216 to
    246 and 248 to 255. *)
Definition is_id_start (c : ascii) : bool :=
  let n := nat_of_ascii c in
  (is_alpha c || Ascii.eqb c "_"
   || Nat.eqb n 170 || Nat.eqb n 181 || Nat.eqb n 186
   || (Nat.leb 192 n && Nat.leb n 214)
   || (Nat.leb 216 n && Nat.leb n 246)
   || (Nat.leb 248 n && Nat.leb n 255))%bool.

(** The characters that may follow: these, the digits and the middle dot
    183. *)
Definition is_name_char (c : ascii) : bool :=
  (is_id_start c || is_digit c || Nat.eqb (nat_of_ascii c) 183)%bool.

Fixpoint all_name_chars (s : string) : bool :=
  match s with
  | EmptyString => true
  | String c s' => (is_name_char c && all_name_chars s')%bool
  end.

(** [s.isidentifier()] *)
Definition isidentifier (s : string) : bool :=
  match s with
  | EmptyString => false
  | String c s' => (is_id_start c && all_name_chars s')%bool
  end.

Definition starts_with_underscore (s : string) : bool :=
  match s with
  | String c _ => Ascii.eqb c "_"
  | EmptyString => false
  end.

(** The names [namedtuple] accepts: the type name and every field name an
    identifier that is no reserved word, no field name starting with an
    underscore, no field name twice. *)
Definition valid_names (typename : string) (field_names : list string)
  : bool :=
  (forallb (fun name => isidentifier name && negb (iskeyword name))
     (typename :: field_names)
   && forallb (fun name => negb (starts_with_underscore name)) field_names
   && bool_decide (NoDup field_names))%bool.

(** A tuple type made by [namedtuple] is given by its field names; an
    instance pairs them with its values. *)
Record tuple_type := { typename : string; _fields : list string }.
Record instance := { type_of : tuple_type; values : list string }.

(** [collections.namedtuple(typename, field_names)] *)
Definition namedtuple (typename : string) (field_names : list string)
  : result tuple_type :=
  if valid_names typename field_names
  then Ok {| typename := typename; _fields := field_names |}
  else Raise ValueError.

(** [cls._make(iterable)]: the number of values must be the number of
    fields. *)
Definition _make (cls : tuple_type) (iterable : list string)
  : result instance :=
  if bool_decide (length iterable = length (_fields cls))
  then Ok {| type_of := cls; values := iterable |}
  else Raise TypeError.

End Collections.

(** ** The worksheet *)

Module Worksheet.

(** The cells of the active sheet, keyed by (row, column) with rows and
    columns from 1. Reading a cell the sheet does not hold makes the sheet
    hold it with the value [None]: no value read changes by it, and since
    only rows from 1 to 1048576 are read, the sheet comes to hold a row
    beyond 1048576 only if it held one from the start. The sheet is
    therefore kept as it is loaded. *)
Abbreviation t := (gmap (Z * Z) pyval).

(** The value of a cell of the sheet; a cell the sheet does not hold has the
    value [None]. *)
Definition cell_value (ws : t) (row column : Z) : pyval :=
  default VNone (ws !! (row, column)).

(** [ws.max_row] and [ws.max_column]: the largest row and the largest column
    that hold a cell, 1 for a sheet without cells. *)
Definition max_row (ws : t) : Z :=
  map_fold (fun k _ acc => Z.max k.1 acc) 1 ws.

Definition max_column (ws : t) : Z :=
  map_fold (fun k _ acc => Z.max k.2 acc) 1 ws.

(** [ws.cell(row, column).value]: the sheet refuses a row or a column below
    1 and a row above 1048576. *)
Definition cell (ws : t) (row column : Z) : result pyval :=
  if bool_decide (row < 1 \/ column < 1) then Raise ValueError
  else if bool_decide (0 < row < 1048577) then Ok (cell_value ws row column)
  else Raise ValueError.

(** [x or default] on integers *)
Definition or_default (x default : Z) : Z :=
  if bool_decide (x = 0) then default else x.

(** [ws.iter_cols(min_row, min_col, max_row, max_col, values_only=True)],
    read to its end: one tuple per column, holding the values of the rows
    from [min_row] to [max_row]. A bound that is 0 stands for the first row
    or column, or for the last the sheet holds; with four such bounds a
    sheet without cells gives nothing. *)
Definition iter_cols (ws : t) (min_row min_col max_row' max_col : Z)
  : result (list (list pyval)) :=
  if bool_decide (ws = ∅ /\ min_col = 0 /\ min_row = 0
                  /\ max_col = 0 /\ max_row' = 0)
  then Ok []
  else
    let min_col := or_default min_col 1 in
    let min_row := or_default min_row 1 in
    let max_col := or_default max_col (max_column ws) in
    let max_row' := or_default max_row' (max_row ws) in
    mapM (fun column =>
            mapM (fun row => cell ws row column)
                 (seqZ min_row (max_row' - min_row + 1)))
         (seqZ min_col (max_col - min_col + 1)).

End Worksheet.

Arguments Worksheet.iter_cols : simpl never.

(** ** The class [TitleMasterReport] *)

Record TitleMasterReport := {
  _worksheet : Worksheet.t;
  _filename : string;
  _report_id : pyval;
  _reporting_period : pyval
}.

Definition PERIODS : list string :=
  [EmptyString; "jan"; "feb"; "mar"; "apr"; "may"; "jun"; "jul"; "aug";
   "sep"; "oct"; "nov"; "dec"].
Definition MAX_COLS : Z := 16384.
Definition MAX_ROWS : Z := 1048576.
Definition HEADER_ROW : Z := 14.
Definition DATA_ROW_START : Z := 15.
Definition DATA_COL_START : Z := 1.

(** [__init__], from the base name of the file and its active sheet. *)
Definition init (filename : string) (ws : Worksheet.t) : TitleMasterReport :=
  {| _worksheet := ws;
     _filename := filename;
     _report_id := Worksheet.cell_value ws 2 2;
     _reporting_period := Worksheet.cell_value ws 10 2 |}.

Definition filename (self : TitleMasterReport) : string := _filename self.
Definition report_id (self : TitleMasterReport) : pyval := _report_id self.

(** [v.split(sep)]: only a [str] has the method. *)
Definition split_value (v : pyval) (sep : ascii) : result (list string) :=
  match v with
  | VStr s => Ok (split sep s)
  | _ => Raise AttributeError
  end.

(** The value half of the [i]-th entry of the reporting period. *)
Definition period_value (self : TitleMasterReport) (i : nat) : result string :=
  entries ← split_value (_reporting_period self) ";";
  kv_pair ← index entries i;
  index (split "=" kv_pair) 1.

Definition begin_date (self : TitleMasterReport) : result string :=
  period_value self 0.

Definition end_date (self : TitleMasterReport) : result string :=
  period_value self 1.

(** [self.report_id[3:4]]: a slice, which only sequences have. *)
Definition title_type (self : TitleMasterReport) : result string :=
  match report_id self with
  | VStr s => Ok (str_slice 3 4 s)
  | _ => Raise TypeError
  end.

(** The dictionary [col] of [_header_row]. *)
Definition col : gmap string Z :=
  {[ "TR_J1" := 11; "TR_J3" := 12; "TR_B1" := 13; "TR_B3" := 14 ]}.

(** [col[key]]: a key that is no [str] equals none of the keys. *)
Definition col_lookup (key : pyval) : result Z :=
  match key with
  | VStr s => match col !! s with
              | Some n => Ok n
              | None => Raise KeyError
              end
  | _ => Raise KeyError
  end.

(** [cell.lower()] *)
Definition lower_value (cell : pyval) : result string :=
  match cell with
  | VStr s => Ok (lower s)
  | _ => Raise AttributeError
  end.

Definition _header_row (self : TitleMasterReport) : result (list string) :=
  max_col ← col_lookup (report_id self);
  cols ← Worksheet.iter_cols (_worksheet self)
           HEADER_ROW 1 HEADER_ROW max_col;
  header ← mapM lower_value (concat cols);
  b ← begin_date self;
  start_month ← int (str_slice 5 7 b);
  e ← end_date self;
  end_month ← int (str_slice 5 7 e);
  let period_cols := slice start_month (end_month + 1) PERIODS in
  Ok (header ++ period_cols)%list.

(** The loops of [data_rows] and [data_cols]: [i] is the counter, [remaining]
    the number of cells the iteration can still hand over, [blank i] tells
    whether the cell read at step [i] is [None]. *)
Fixpoint probe (blank : Z -> bool) (remaining : nat) (i : Z) : Z :=
  match remaining with
  | O => i
  | S k => if blank i then i else probe blank k (i + 1)
  end.

Definition data_rows (self : TitleMasterReport) : list Z :=
  let r := probe (fun row =>
                    is_none (Worksheet.cell_value (_worksheet self) row 1))
             (Z.to_nat (MAX_ROWS - DATA_ROW_START + 1)) DATA_ROW_START in
  seqZ DATA_ROW_START (r - DATA_ROW_START).

Definition data_cols (self : TitleMasterReport) : list Z :=
  let c := probe (fun column =>
                    is_none (Worksheet.cell_value (_worksheet self) HEADER_ROW column))
             (Z.to_nat (MAX_COLS - DATA_COL_START + 1)) 1 in
  seqZ DATA_COL_START (c - DATA_COL_START).

(* The probes run over up to a million cells: simplification leaves them
   folded. *)
Arguments data_rows : simpl never.
Arguments data_cols : simpl never.

(** The character that [get_row] removes. *)
Definition double_quote : ascii := "034"%char.

(** The value [get_row] stores for a cell. *)
Definition normalize (cell : pyval) : string :=
  match cell with
  | VNone => EmptyString
  | _ => remove_char double_quote (str cell)
  end.

Definition get_row (self : TitleMasterReport) (n : Z)
  : result Collections.instance :=
  header ← _header_row self;
  row_spec ← Collections.namedtuple "ReportRow" header;
  max_col ← Py.max (data_cols self);
  cols ← Worksheet.iter_cols (_worksheet self) n 1 n max_col;
  Collections._make row_spec (normalize <$> concat cols).

(** The normalised cells of the row [n] in the columns 1 to [max_col]: what
    [get_row n] extracts from a row of the sheet. *)
Definition datarow (self : TitleMasterReport) (n max_col : Z) : list string :=
  (fun column => normalize (Worksheet.cell_value (_worksheet self) n column))
    <$> seqZ 1 max_col.

(** The conditions under which the reporting period is called malformed:
    fewer than two entries, or no [=] in the first or in the second. *)
Definition lacks_eq (entry : string) : bool := negb (has_char "=" entry).

Definition malformed_period (rp : string) : bool :=
  match split ";" rp with
  | e0 :: e1 :: _ => (lacks_eq e0 || lacks_eq e1)%bool
  | _ => true
  end.

(** The layouts and their numbers of identifying columns. *)
Definition layouts : list (string * Z) :=
  [("TR_J1", 11); ("TR_J3", 12); ("TR_B1", 13); ("TR_B3", 14)].

(** The cells of the header row in the columns 1 to [n]. *)
Definition header_cells (self : TitleMasterReport) (n : Z) : list pyval :=
  Worksheet.cell_value (_worksheet self) HEADER_ROW <$> seqZ 1 n.

(** ** Sample reports *)

Module Sample.

Definition row_cells (row : Z) (vs : list pyval) : list (Z * Z * pyval) :=
  imap (fun i v => ((row, Z.of_nat i + 1), v)) vs.

(** A sheet with its two metadata cells, its header row and its data rows. *)
Definition sheet (rid period : pyval) (header : list pyval)
    (data : list (list pyval)) : Worksheet.t :=
  list_to_map
    ([((2, 2), rid); ((10, 2), period)]
       ++ row_cells HEADER_ROW header
       ++ concat (imap (fun i => row_cells (DATA_ROW_START + Z.of_nat i)) data)).

Definition j1_ids : list string :=
  ["Title"; "Publisher"; "Publisher_ID"; "Platform"; "DOI"; "Proprietary_ID";
   "Print_ISSN"; "Online_ISSN"; "URI"; "Metric_Type"; "Reporting_Period_Total"].

Definition j1_header : list pyval :=
  VStr <$> (j1_ids ++ ["Jan-2020"; "Feb-2020"; "Mar-2020"])%list.

Definition quoted_title : string :=
  String double_quote ("Cell" ++ String double_quote " Reports").

Definition j1_row (title : string) (total jan feb mar : Z) : list pyval :=
  [VStr title; VStr "Elsevier"; VNone; VStr "ScienceDirect"; VNone; VNone;
   VStr "0001-0782"; VNone; VNone; VStr "Total_Item_Requests";
   VInt total; VInt jan; VInt feb; VInt mar].

Definition j1_data : list (list pyval) :=
  [j1_row quoted_title 6 1 2 3; j1_row "Lancet" 9 4 5 0;
   j1_row "Brain" 3 1 1 1; j1_row "Gut" 0 0 0 0;
   j1_row "Allergy" 12 4 4 4; j1_row "Pain" 2 0 1 1].

(** A journal report for January to March with six data rows. *)
Definition j1 : TitleMasterReport :=
  init "TR_J1_2020.xlsx"
    (sheet (VStr "TR_J1") (VStr "Begin_Date=2020-01-01; End_Date=2020-03-31")
       j1_header j1_data).

(** The same sheet under another layout code or reporting period. *)
Definition j1_with (rid period : string) : TitleMasterReport :=
  init "TR_J1_2020.xlsx" (sheet (VStr rid) (VStr period) j1_header j1_data).

(** The sheet with a reporting period of one entry, with a layout code of
    two characters, and with a begin month 13. *)
Definition j1_single_entry : TitleMasterReport :=
  j1_with "TR_J1" "Begin_Date=2020-01-01".
Definition j1_short_code : TitleMasterReport :=
  j1_with "TR" "Begin_Date=2020-01-01; End_Date=2020-03-31".
Definition j1_month_13 : TitleMasterReport :=
  j1_with "TR_J1" "Begin_Date=2020-13-01; End_Date=2020-03-31".

(** A sheet without data rows. *)
Definition j1_no_data : TitleMasterReport :=
  init "TR_J1_empty.xlsx"
    (sheet (VStr "TR_J1") (VStr "Begin_Date=2020-01-01; End_Date=2020-03-31")
       j1_header []).

(** A sheet whose second header cell is not an identifier. *)
Definition j1_spaced_header : TitleMasterReport :=
  init "TR_J1_2020.xlsx"
    (sheet (VStr "TR_J1") (VStr "Begin_Date=2020-01-01; End_Date=2020-03-31")
       (<[1%nat := VStr "Publisher Name"]> j1_header) j1_data).

(** A sheet with one column more than the header derived for it. *)
Definition j1_extra_column : TitleMasterReport :=
  init "TR_J1_2020.xlsx"
    (sheet (VStr "TR_J1") (VStr "Begin_Date=2020-01-01; End_Date=2020-03-31")
       (j1_header ++ [VStr "Apr-2020"])%list j1_data).

(** A sheet with both: a header cell that is no identifier and one column
    more than the header derived for it. *)
Definition j1_spaced_extra_column : TitleMasterReport :=
  init "TR_J1_2020.xlsx"
    (sheet (VStr "TR_J1") (VStr "Begin_Date=2020-01-01; End_Date=2020-03-31")
       (<[1%nat := VStr "Publisher Name"]> j1_header ++ [VStr "Apr-2020"])%list
       j1_data).

End Sample.

(** ** The loader script (jr1loader.py) *)

Module Jr1Loader.

(** What the script sees of an exception it catches: the texts [str] gives
    for its type and for its value. *)
Record exc_info := { exc_type : string; exc_value : string }.

(** The script's collaborators, which are not part of it: the two modules
    of the package it imports, whose top-level code runs at the import, the
    constructor of the class [Platform], the listing of a directory by
    [glob.glob], the report class [JR1Report], the attribute [platform] of a
    report and the method [insert] of a [Platform] object. [Env] is what
    they act on (the files, the database); each call that can fail or leave
    a trace returns the state it leaves and either the exception raised or
    its value; the listing only reads the state. *)
Class Collaborators := {
  Env : Type;
  Report : Type;
  PlatformRow : Type;
  PlatformObject : Type;
  import_jr1report : Env -> Env * (exc_info + unit);
  import_counterdb : Env -> Env * (exc_info + unit);
  Platform : Env -> Env * (exc_info + PlatformObject);
  glob : string -> Env -> list string;
  JR1Report : string -> Env -> Env * (exc_info + Report);
  report_platform : Report -> Env -> Env * (exc_info + PlatformRow);
  platform_insert :
    PlatformObject -> PlatformRow -> Env -> Env * (exc_info + unit)
}.

Section Script.

Context `{Collaborators}.

(** What the script acts on: the text written to the standard output, the
    text of the file [errors.log] (which is taken to be writable) and the
    state of the collaborators. *)
Record world := { stdout : string; errors_log : string; env : Env }.

(** An exception that nothing catches and that ends the script: one a
    collaborator raises, or one of the script's own operations. *)
Inductive uncaught :=
  | FromCollaborator (exc : exc_info)
  | FromScript (e : exn).

Definition newline : string := String "010"%char EmptyString.

Definition with_env (w : world) (e : Env) : world :=
  {| stdout := stdout w; errors_log := errors_log w; env := e |}.

(** The statement [print s] *)
Definition print (s : string) (w : world) : world :=
  {| stdout := (stdout w ++ (s ++ newline))%string;
     errors_log := errors_log w;
     env := env w |}.

(** The statements that run when the module is loaded, before the script
    looks at its arguments: the imports of the package's modules and
    [platform = Platform()]. The import of [sys], [glob] and [os] is taken
    to succeed. *)
Definition startup (e : Env) : Env * (exc_info + PlatformObject) :=
  let '(e1, r1) := import_jr1report e in
  match r1 with
  | inl exc => (e1, inl exc)
  | inr _ =>
      let '(e2, r2) := import_counterdb e1 in
      match r2 with
      | inl exc => (e2, inl exc)
      | inr _ => Platform e2
      end
  end.

Definition log_error (err_msg : string) (w : world) : world :=
  {| stdout := stdout w;
     errors_log := (errors_log w ++ (err_msg ++ newline))%string;
     env := env w |}.

(** [load_platform], with the module's object [platform]. *)
Definition load_platform (platform : PlatformObject) (jr1report : Report)
    (e : Env) : Env * (exc_info + unit) :=
  let '(e1, p) := report_platform jr1report e in
  match p with
  | inl exc => (e1, inl exc)
  | inr row => platform_insert platform row e1
  end.

(** The two statements under [try]. *)
Definition try_load (platform : PlatformObject) (f : string) (e : Env)
  : Env * (exc_info + unit) :=
  let '(e1, r) := JR1Report f e in
  match r with
  | inl exc => (e1, inl exc)
  | inr jr1report => load_platform platform jr1report e1
  end.

(** The message of the [except] clause. *)
Definition error_message (f : string) (exc : exc_info) : string :=
  (f ++ (" | " ++ (exc_type exc ++ (" | " ++ exc_value exc))))%string.

(** The body of the loop over the files. *)
Definition process_file (platform : PlatformObject) (w : world) (f : string)
  : world :=
  let w1 := print ("Processing " ++ f)%string w in
  let '(e1, r) := try_load platform f (env w1) in
  let w2 := with_env w1 e1 in
  match r with
  | inl exc => log_error (error_message f exc) w2
  | inr _ => w2
  end.

Definition usage : string := "Usage: python jr1loader.py <report directory>".

(** The script, run with the arguments [argv]: the world it leaves, and the
    exception that ended it, if one did. *)
Definition main (argv : list string) (w : world) : world * (uncaught + unit) :=
  let '(e1, r) := startup (env w) in
  let w1 := with_env w e1 in
  match r with
  | inl exc => (w1, inl (FromCollaborator exc))
  | inr platform =>
      if bool_decide (length argv = 1%nat) then (print usage w1, inr tt)
      else
        match index argv 1 with
        | Raise e => (w1, inl (FromScript e))
        | Ok jr1dir =>
            let files := glob (jr1dir ++ "/*.xlsx")%string (env w1) in
            (foldl (process_file platform) w1 files, inr tt)
        end
  end.

(** The files of a list on which the [try] block raises, with what it
    raises, when the loop starts in the state [e]; and the state the loop
    leaves. *)
Fixpoint failures (platform : PlatformObject) (files : list string) (e : Env)
  : list (string * exc_info) :=
  match files with
  | [] => []
  | f :: files' =>
      let '(e1, r) := try_load platform f e in
      match r with
      | inl exc => (f, exc) :: failures platform files' e1
      | inr _ => failures platform files' e1
      end
  end.

Definition env_after (platform : PlatformObject) (files : list string)
    (e : Env) : Env :=
  foldl (fun e f => (try_load platform f e).1) e files.

(** The concatenation of lines. *)
Definition lines (l : list string) : string :=
  foldr (fun s acc => (s ++ (newline ++ acc))%string) EmptyString l.

End Script.

End Jr1Loader.

(** Runs of the script. The directory holds three files, the second of which
    cannot be read; the state is the list of the events the collaborators
    leave: the connection [Platform()] opens and the platforms inserted. In
    the second run the database is down and [Platform()] raises. *)
Module SampleRun.

Import Jr1Loader.

Definition unreadable : exc_info :=
  {| exc_type := "<class 'zipfile.BadZipfile'>";
     exc_value := "File is not a zip file" |}.

Definition refused : exc_info :=
  {| exc_type := "<class 'sqlite3.OperationalError'>";
     exc_value := "unable to open database file" |}.

Definition collaborators : Collaborators := {|
  Env := list string;
  Report := string;
  PlatformRow := string;
  PlatformObject := unit;
  import_jr1report := fun e => (e, inr tt);
  import_counterdb := fun e => (e, inr tt);
  Platform := fun e => ((e ++ ["connected"])%list, inr tt);
  glob := fun pattern _ =>
    if String.eqb pattern "reports/*.xlsx"
    then ["reports/a.xlsx"; "reports/b.xlsx"; "reports/c.xlsx"] else [];
  JR1Report := fun f e =>
    if String.eqb f "reports/b.xlsx" then (e, inl unreadable) else (e, inr f);
  report_platform := fun r e => (e, inr r);
  platform_insert := fun _ row e => ((e ++ [row])%list, inr tt)
|}.

Definition no_database : Collaborators := {|
  Env := list string;
  Report := string;
  PlatformRow := string;
  PlatformObject := unit;
  import_jr1report := fun e => (e, inr tt);
  import_counterdb := fun e => ((e ++ ["counterdb imported"])%list, inr tt);
  Platform := fun e => (e, inl refused);
  glob := fun pattern _ => ["reports/a.xlsx"];
  JR1Report := fun f e => (e, inr f);
  report_platform := fun r e => (e, inr r);
  platform_insert := fun _ row e => ((e ++ [row])%list, inr tt)
|}.

Definition start : @world collaborators :=
  {| stdout := EmptyString;
     errors_log := "old line" ++ newline;
     env := (@nil string : @Env collaborators) |}.

Definition start_no_database : @world no_database :=
  {| stdout := EmptyString;
     errors_log := "old line" ++ newline;
     env := (@nil string : @Env no_database) |}.

End SampleRun.

(** ** Facts about the Python primitives *)

Section PyFacts.

Lemma split_nonempty sep s : exists w ws, split sep s = w :: ws.
Proof.
  induction s as [|c s IH]; simpl; [by eauto|].
  destruct (Ascii.eqb c sep); [by eauto|].
  destruct IH as (w & ws & ->). by eauto.
Qed.

Lemma split_no_sep sep s : has_char sep s = false -> split sep s = [s].
Proof.
  induction s as [|c s IH]; simpl; [done|].
  intros [Hc Hs]%orb_false_iff. rewrite Hc, (IH Hs). done.
Qed.

Lemma split_app_sep sep a rest :
  has_char sep a = false ->
  split sep (a ++ String sep rest)%string = a :: split sep rest.
Proof.
  induction a as [|c a IH]; simpl.
  - intros _. by rewrite Ascii.eqb_refl.
  - intros [Hc Ha]%orb_false_iff. rewrite Hc, (IH Ha). done.
Qed.

Lemma split_has_sep sep s :
  has_char sep s = true -> exists w1 w2 ws, split sep s = w1 :: w2 :: ws.
Proof.
  induction s as [|c s IH]; simpl; [done|].
  destruct (Ascii.eqb c sep) eqn:Hc; simpl.
  - intros _. destruct (split_nonempty sep s) as (w & ws & ->). by eauto.
  - intros Hs. destruct (IH Hs) as (w1 & w2 & ws & ->). by eauto.
Qed.

(** The second entry of a split exists exactly when the separator occurs. *)
Lemma split_second sep s :
  (exists w, split sep s !! 1%nat = Some w) <-> has_char sep s = true.
Proof.
  split.
  - intros [w Hw]. destruct (has_char sep s) eqn:H; [done|].
    rewrite (split_no_sep _ _ H) in Hw. done.
  - intros (w1 & w2 & ws & ->)%split_has_sep. by eauto.
Qed.

Lemma index_Ok {A} (l : list A) i a : index l i = Ok a <-> l !! i = Some a.
Proof. unfold index. destruct (l !! i); split; congruence. Qed.

(** A slice with non-negative bounds is a [take] of a [drop]. *)
Lemma slice_nonneg {A} (lo hi : Z) (l : list A) :
  0 <= lo -> 0 <= hi ->
  slice lo hi l = take (Z.to_nat hi - Z.to_nat lo) (drop (Z.to_nat lo) l).
Proof.
  intros Hlo Hhi. unfold slice, clamp_index.
  destruct (Z.ltb_spec lo 0); [lia|]. destruct (Z.ltb_spec hi 0); [lia|].
  destruct (Z.le_gt_cases lo (Z.of_nat (length l))) as [Hl|Hl].
  - rewrite (Z.min_l lo) by done.
    destruct (Z.le_gt_cases hi (Z.of_nat (length l))) as [Hh|Hh].
    + rewrite (Z.min_l hi) by done. f_equal. lia.
    + rewrite (Z.min_r hi) by lia.
      rewrite !take_ge; [done| |]; rewrite length_drop; lia.
  - rewrite (Z.min_r lo) by lia.
    rewrite !drop_ge by lia. by rewrite !take_nil.
Qed.

Lemma slice_empty {A} (lo hi : Z) (l : list A) :
  0 <= hi <= lo -> slice lo hi l = [].
Proof.
  intros H. rewrite slice_nonneg by lia.
  replace (Z.to_nat hi - Z.to_nat lo)%nat with 0%nat by lia. done.
Qed.

Lemma slice_length {A} (lo hi : Z) (l : list A) :
  0 <= lo <= hi -> hi <= Z.of_nat (length l) ->
  Z.of_nat (length (slice lo hi l)) = hi - lo.
Proof.
  intros H1 H2. rewrite slice_nonneg by lia.
  rewrite length_take, length_drop. lia.
Qed.

Lemma slice_lookup {A} (lo hi : Z) (l : list A) (i : nat) :
  0 <= lo -> Z.of_nat i < hi - lo ->
  slice lo hi l !! i = l !! (Z.to_nat lo + i)%nat.
Proof.
  intros H1 H2. rewrite slice_nonneg by lia.
  rewrite lookup_take_lt by lia. by rewrite lookup_drop.
Qed.

(** [remove_char] keeps, in order, the characters other than [c]. *)
Lemma remove_char_filter c s :
  list_ascii_of_string (remove_char c s)
  = filter (fun a => a <> c) (list_ascii_of_string s).
Proof.
  induction s as [|a s IH]; simpl; [done|].
  destruct (Ascii.eqb_spec a c) as [->|Hne].
  - rewrite filter_cons_False by (by intros ?). done.
  - rewrite filter_cons_True by done. simpl. by rewrite IH.
Qed.

Lemma remove_char_absent c s : has_char c (remove_char c s) = false.
Proof.
  induction s as [|a s IH]; simpl; [done|].
  destruct (Ascii.eqb a c) eqn:E; simpl; [done|]. by rewrite E, IH.
Qed.

End PyFacts.

(** ** The report identity *)

Section Identity.

Implicit Types (self : TitleMasterReport) (rp : string).

Lemma period_value_str self rp i :
  _reporting_period self = VStr rp ->
  period_value self i =
    kv_pair ← index (split ";" rp) i; index (split "=" kv_pair) 1.
Proof. intros H. unfold period_value. by rewrite H. Qed.

(** The value half of an entry exists exactly when the entry has a [=]. *)
Lemma value_half entry :
  (has_char "=" entry = true -> exists v, index (split "=" entry) 1 = Ok v)
  /\ (has_char "=" entry = false ->
      index (split "=" entry) 1 = Raise IndexError).
Proof.
  split.
  - intros [v Hv]%split_second. exists v. by apply index_Ok.
  - intros H. by rewrite (split_no_sep _ _ H).
Qed.

Lemma period_value_entry self rp i entry :
  _reporting_period self = VStr rp ->
  split ";" rp !! i = Some entry ->
  period_value self i = index (split "=" entry) 1.
Proof.
  intros Hrp He. rewrite (period_value_str _ _ _ Hrp).
  apply index_Ok in He. by rewrite He.
Qed.

Lemma period_value_missing self rp i :
  _reporting_period self = VStr rp ->
  split ";" rp !! i = None ->
  period_value self i = Raise IndexError.
Proof.
  intros Hrp He. rewrite (period_value_str _ _ _ Hrp).
  unfold index. by rewrite He.
Qed.

(** C10. When the first (second) entry of the reporting period has more
    than one [=], [begin_date] ([end_date]) returns exactly the text between
    the first and the second [=] of that entry; what follows the second [=]
    is dropped without an error. *)
Theorem date_between_first_two_eq_C10 self rp :
  _reporting_period self = VStr rp ->
  (forall k v rest,
      split ";" rp !! 0%nat = Some (k ++ String "=" (v ++ String "=" rest))%string ->
      has_char "=" k = false -> has_char "=" v = false ->
      begin_date self = Ok v)
  /\ (forall k v rest,
      split ";" rp !! 1%nat = Some (k ++ String "=" (v ++ String "=" rest))%string ->
      has_char "=" k = false -> has_char "=" v = false ->
      end_date self = Ok v).
Proof.
  intros Hrp.
  assert (forall i k v rest,
    split ";" rp !! i = Some (k ++ String "=" (v ++ String "=" rest))%string ->
    has_char "=" k = false -> has_char "=" v = false ->
    period_value self i = Ok v) as Hgen.
  { intros i k v rest He Hk Hv.
    rewrite (period_value_entry _ _ _ _ Hrp He).
    rewrite (split_app_sep _ _ _ Hk), (split_app_sep _ _ _ Hv). done. }
  split; intros k v rest; apply Hgen.
Qed.

Lemma date_between_first_two_eq_C10_witness :
  begin_date (Sample.j1_with "TR_J1" "Begin=2020-01-01=x;End=2020-03-31=y=z")
    = Ok "2020-01-01"
  /\ end_date (Sample.j1_with "TR_J1" "Begin=2020-01-01=x;End=2020-03-31=y=z")
    = Ok "2020-03-31".
Proof.
  pose proof (date_between_first_two_eq_C10
    (Sample.j1_with "TR_J1" "Begin=2020-01-01=x;End=2020-03-31=y=z")
    "Begin=2020-01-01=x;End=2020-03-31=y=z" eq_refl) as [Hb He].
  split.
  - apply (Hb "Begin" "2020-01-01" "x"); reflexivity.
  - apply (He "End" "2020-03-31" "y=z"); reflexivity.
Defined.

(** C5, as the code has it. [begin_date] reads the first entry only and
    raises [IndexError] exactly when that entry has no [=]; [end_date] reads
    the second entry only and raises [IndexError] exactly when there is no
    second entry or it has no [=]. So for a malformed reporting period one of
    the two raises [IndexError], and [_header_row], which reads both, returns
    no header. *)
Theorem period_dates_fail_C5 self rp :
  _reporting_period self = VStr rp ->
  (forall e0, split ";" rp !! 0%nat = Some e0 ->
     if has_char "=" e0 then succeeds (begin_date self)
     else begin_date self = Raise IndexError)
  /\ (split ";" rp !! 1%nat = None -> end_date self = Raise IndexError)
  /\ (forall e1, split ";" rp !! 1%nat = Some e1 ->
     if has_char "=" e1 then succeeds (end_date self)
     else end_date self = Raise IndexError)
  /\ (malformed_period rp = true ->
      (begin_date self = Raise IndexError \/ end_date self = Raise IndexError)
      /\ fails (_header_row self)).
Proof.
  intros Hrp.
  assert (forall i e, split ";" rp !! i = Some e ->
            if has_char "=" e then succeeds (period_value self i)
            else period_value self i = Raise IndexError) as Hentry.
  { intros i e He. rewrite (period_value_entry _ _ _ _ Hrp He).
    destruct (value_half e) as [Hyes Hno].
    destruct (has_char "=" e); [by apply Hyes | by apply Hno]. }
  split; [apply Hentry|].
  split; [apply (period_value_missing _ _ _ Hrp)|].
  split; [apply Hentry|].
  intros Hbad.
  assert (begin_date self = Raise IndexError \/ end_date self = Raise IndexError)
    as Hone.
  { unfold malformed_period, lacks_eq in Hbad.
    destruct (split_nonempty ";" rp) as (e0 & es & Hs). rewrite Hs in Hbad.
    destruct es as [|e1 es].
    - right. apply (period_value_missing _ _ _ Hrp). by rewrite Hs.
    - apply orb_true_iff in Hbad as [H0|H1].
      + left. specialize (Hentry 0%nat e0). rewrite Hs in Hentry.
        apply negb_true_iff in H0. rewrite H0 in Hentry. by apply Hentry.
      + right. specialize (Hentry 1%nat e1). rewrite Hs in Hentry.
        apply negb_true_iff in H1. rewrite H1 in Hentry. by apply Hentry. }
  split; [done|].
  unfold fails, _header_row.
  destruct (col_lookup (report_id self)) as [max_col|]; simpl; [|by eauto].
  destruct (Worksheet.iter_cols _ _ _ _ _) as [cols|]; simpl; [|by eauto].
  destruct (mapM _ _) as [header|]; simpl; [|by eauto].
  destruct (begin_date self) as [b|] eqn:Hb; simpl; [|by eauto].
  destruct (int (str_slice 5 7 b)) as [bm|]; simpl; [|by eauto].
  destruct Hone as [?|He]; [done|]. rewrite He. simpl. by eauto.
Qed.

Lemma period_dates_fail_C5_witness :
  end_date (Sample.j1_with "TR_J1" "Begin_Date=2020-01-01") = Raise IndexError
  /\ fails (_header_row (Sample.j1_with "TR_J1" "Begin_Date=2020-01-01")).
Proof.
  pose proof (period_dates_fail_C5
    (Sample.j1_with "TR_J1" "Begin_Date=2020-01-01")
    "Begin_Date=2020-01-01" eq_refl) as (_ & Hend & _ & Hbad).
  split; [by apply Hend | by apply Hbad].
Defined.

(** C5, as stated, fails: with a single entry [begin_date] returns the date. *)
Lemma begin_date_single_entry_C5_counterexample :
  _reporting_period Sample.j1_single_entry = VStr "Begin_Date=2020-01-01"
  /\ (length (split ";" "Begin_Date=2020-01-01") < 2)%nat
  /\ malformed_period "Begin_Date=2020-01-01" = true
  /\ begin_date Sample.j1_single_entry = Ok "2020-01-01"
  /\ ~ fails (begin_date Sample.j1_single_entry).
Proof.
  repeat split; [vm_compute; lia|].
  intros [e He]. vm_compute in He. discriminate He.
Qed.

(** C6, as the code has it. For a layout code of at least four characters
    [title_type] is the one-character text at position 3; for a shorter code
    it is the empty text, and nothing is raised. *)
Theorem title_type_slice_C6 self code :
  report_id self = VStr code ->
  (forall c, String.get 3 code = Some c ->
             title_type self = Ok (String c EmptyString))
  /\ ((4 <= String.length code)%nat -> exists c, String.get 3 code = Some c)
  /\ ((String.length code < 4)%nat -> title_type self = Ok EmptyString).
Proof.
  intros Hid. unfold title_type, str_slice. rewrite Hid.
  rewrite slice_nonneg by lia.
  change (Z.to_nat 4 - Z.to_nat 3)%nat with 1%nat.
  change (Z.to_nat 3) with 3%nat.
  destruct code as [|a [|b [|c [|d rest]]]]; simpl;
    (split; [intros ? [= <-] || done | split; [lia || eauto | try lia; done]]).
  done.
Qed.

Lemma title_type_slice_C6_witness :
  title_type (Sample.j1_with "TR_J1_abc" "Begin_Date=2020-01-01") = Ok "J"
  /\ title_type Sample.j1_short_code = Ok EmptyString.
Proof.
  split.
  - apply (title_type_slice_C6
             (Sample.j1_with "TR_J1_abc" "Begin_Date=2020-01-01")
             "TR_J1_abc" eq_refl).
    reflexivity.
  - apply (title_type_slice_C6 Sample.j1_short_code "TR" eq_refl).
    simpl. lia.
Defined.

(** C6, as stated, fails: a layout code of two characters raises nothing. *)
Lemma title_type_short_code_C6_counterexample :
  report_id Sample.j1_short_code = VStr "TR"
  /\ (String.length "TR" < 4)%nat
  /\ title_type Sample.j1_short_code = Ok EmptyString
  /\ ~ fails (title_type Sample.j1_short_code).
Proof.
  repeat split; [vm_compute; lia|].
  intros [e He]. vm_compute in He. discriminate He.
Qed.

End Identity.

(** ** The header derivation *)

Section Header.

Implicit Types (self : TitleMasterReport) (names : list string).

Lemma col_layouts code count :
  col !! code = Some count <-> (code, count) ∈ layouts.
Proof.
  unfold col, layouts. rewrite !elem_of_cons, elem_of_nil.
  destruct (decide (code = "TR_J1")) as [->|H1];
    [rewrite lookup_insert_eq | rewrite lookup_insert_ne by done];
    [split; [intros [= <-]; tauto | intros [H|[H|[H|[H|[]]]]]; congruence]|].
  destruct (decide (code = "TR_J3")) as [->|H2];
    [rewrite lookup_insert_eq | rewrite lookup_insert_ne by done];
    [split; [intros [= <-]; tauto | intros [H|[H|[H|[H|[]]]]]; congruence]|].
  destruct (decide (code = "TR_B1")) as [->|H3];
    [rewrite lookup_insert_eq | rewrite lookup_insert_ne by done];
    [split; [intros [= <-]; tauto | intros [H|[H|[H|[H|[]]]]]; congruence]|].
  destruct (decide (code = "TR_B3")) as [->|H4];
    [rewrite lookup_singleton_eq | rewrite lookup_singleton_ne by done];
    split; try (intros [= <-]; tauto); try done;
    intros [H|[H|[H|[H|[]]]]]; congruence.
Qed.

Lemma col_lookup_Ok key count :
  col_lookup key = Ok count
  <-> exists code, key = VStr code /\ (code, count) ∈ layouts.
Proof.
  unfold col_lookup.
  destruct key as [|s| | |];
    try (split; [done | by intros (code & ? & _)]).
  destruct (col !! s) as [n|] eqn:Hs.
  - apply col_layouts in Hs. split.
    + intros [= <-]. by eauto.
    + intros (code & [= <-] & Hin). apply col_layouts in Hin, Hs. congruence.
  - split; [done|]. intros (code & [= <-] & Hin%col_layouts). congruence.
Qed.

Lemma col_lookup_Raise key e : col_lookup key = Raise e -> e = KeyError.
Proof.
  unfold col_lookup. destruct key as [|s| | |]; try congruence.
  destruct (col !! s); congruence.
Qed.

Lemma layouts_J1 : ("TR_J1", 11) ∈ layouts.
Proof. apply list_elem_of_here. Qed.

Lemma layouts_count code count : (code, count) ∈ layouts -> 11 <= count <= 14.
Proof.
  unfold layouts. rewrite !elem_of_cons, elem_of_nil.
  intros [H|[H|[H|[H|[]]]]]; injection H as -> ->; lia.
Qed.

Lemma mapM_result_Ok {A B} (f : A -> result B) (g : A -> B) (l : list A) :
  (forall x, x ∈ l -> f x = Ok (g x)) -> mapM f l = Ok (g <$> l).
Proof.
  induction l as [|x l IH]; intros Hf; [done|].
  cbn [mapM]. rewrite (Hf x) by by left. cbn [mbind result_bind].
  rewrite IH by (intros y Hy; apply Hf; by right). done.
Qed.

Lemma concat_singletons {A B} (f : A -> B) (l : list A) :
  concat ((fun x => [f x]) <$> l) = f <$> l.
Proof. induction l as [|x l IH]; simpl; [done|]. f_equal. exact IH. Qed.

Lemma cell_in_range (ws : Worksheet.t) row column :
  1 <= row <= 1048576 -> 1 <= column ->
  Worksheet.cell ws row column = Ok (Worksheet.cell_value ws row column).
Proof.
  intros Hrow Hcol. unfold Worksheet.cell.
  rewrite bool_decide_eq_false_2 by lia. by rewrite bool_decide_eq_true_2 by lia.
Qed.

(** One row of the sheet, read column by column. *)
Lemma iter_cols_row (ws : Worksheet.t) row max_col :
  1 <= row <= 1048576 -> 1 <= max_col ->
  Worksheet.iter_cols ws row 1 row max_col
  = Ok ((fun column => [Worksheet.cell_value ws row column]) <$> seqZ 1 max_col).
Proof.
  intros Hrow Hcol. unfold Worksheet.iter_cols.
  rewrite bool_decide_eq_false_2 by (by intros (_ & ? & _)).
  unfold Worksheet.or_default. rewrite !bool_decide_eq_false_2 by lia.
  replace (row - row + 1) with 1 by lia.
  replace (max_col - 1 + 1) with max_col by lia.
  change (seqZ row 1) with [row].
  apply mapM_result_Ok. intros column [Hc _]%elem_of_seqZ.
  cbn [mapM]. by rewrite cell_in_range.
Qed.

(** [_header_row] once the layout is known. *)
Lemma header_row_known_layout self code count :
  report_id self = VStr code -> (code, count) ∈ layouts ->
  _header_row self =
    (header ← mapM lower_value (header_cells self count);
     b ← begin_date self;
     start_month ← int (str_slice 5 7 b);
     e ← end_date self;
     end_month ← int (str_slice 5 7 e);
     Ok (header ++ slice start_month (end_month + 1) PERIODS)%list).
Proof.
  intros Hid Hin. unfold _header_row.
  assert (col_lookup (report_id self) = Ok count) as ->
    by (apply col_lookup_Ok; eauto).
  pose proof (layouts_count _ _ Hin) as Hcount.
  cbn [mbind result_bind].
  rewrite iter_cols_row by (unfold HEADER_ROW; lia).
  cbn [mbind result_bind]. by rewrite concat_singletons.
Qed.

Lemma mapM_lower_strs names :
  mapM lower_value (VStr <$> names) = Ok (lower <$> names).
Proof.
  induction names as [|s names IH]; [done|].
  rewrite !fmap_cons. simpl. rewrite IH. done.
Qed.

(** Lower-casing succeeds on texts only. *)
Lemma mapM_lower_Ok (cells : list pyval) header :
  mapM lower_value cells = Ok header ->
  exists names, cells = VStr <$> names /\ header = lower <$> names.
Proof.
  revert header. induction cells as [|v cells IH]; intros header; simpl.
  - intros [= <-]. by exists [].
  - destruct v as [|s| | |]; simpl; try done.
    destruct (mapM lower_value cells) as [h|]; simpl; [|done].
    intros [= <-]. destruct (IH h eq_refl) as (names & -> & ->).
    by exists (s :: names).
Qed.

(** The header derivation once the layout is known and the identifying
    header cells are texts: what is left is the month columns. *)
Lemma header_row_months self code count names :
  report_id self = VStr code -> (code, count) ∈ layouts ->
  header_cells self count = VStr <$> names ->
  _header_row self =
    (b ← begin_date self;
     start_month ← int (str_slice 5 7 b);
     e ← end_date self;
     end_month ← int (str_slice 5 7 e);
     Ok ((lower <$> names) ++ slice start_month (end_month + 1) PERIODS)%list).
Proof.
  intros Hid Hin Hcells. rewrite (header_row_known_layout _ _ _ Hid Hin).
  by rewrite Hcells, mapM_lower_strs.
Qed.

Lemma header_cells_length self count names :
  0 <= count -> header_cells self count = VStr <$> names ->
  Z.of_nat (length names) = count.
Proof.
  intros Hc H. apply (f_equal length) in H.
  unfold header_cells in H. rewrite !length_fmap, length_seqZ in H. lia.
Qed.

Lemma int_parse s z : parse_int s = Some z -> int s = Ok z.
Proof. unfold int. by intros ->. Qed.

Lemma int_no_parse s : parse_int s = None -> int s = Raise ValueError.
Proof. unfold int. by intros ->. Qed.

(** A derived header starts with the lower-cased texts of the layout's
    identifying header cells. *)
Lemma header_row_Ok self h :
  _header_row self = Ok h ->
  exists code count names months,
    report_id self = VStr code /\ (code, count) ∈ layouts
    /\ header_cells self count = VStr <$> names
    /\ h = ((lower <$> names) ++ months)%list.
Proof.
  intros Hh.
  destruct (col_lookup (report_id self)) as [count|] eqn:Hcol;
    [|unfold _header_row in Hh; by rewrite Hcol in Hh].
  apply col_lookup_Ok in Hcol as (code & Hid & Hin).
  rewrite (header_row_known_layout _ _ _ Hid Hin) in Hh. revert Hh.
  destruct (mapM lower_value _) as [header|] eqn:Hmap; simpl; [|done].
  apply mapM_lower_Ok in Hmap as (names & Hcells & ->).
  destruct (begin_date self) as [b|]; simpl; [|done].
  destruct (int (str_slice 5 7 b)) as [bm|]; simpl; [|done].
  destruct (end_date self) as [e|]; simpl; [|done].
  destruct (int (str_slice 5 7 e)) as [em|]; simpl; [|done].
  intros [= <-]. by exists code, count, names, (slice bm (em + 1) PERIODS).
Qed.

(** C7. For a layout code outside the four recognised ones the header
    derivation fails at the lookup of the number of identifying columns:
    [KeyError] is raised. *)
Theorem header_row_unsupported_layout_C7 self :
  (forall code, report_id self = VStr code ->
                code ∉ ["TR_J1"; "TR_J3"; "TR_B1"; "TR_B3"]) ->
  _header_row self = Raise KeyError.
Proof.
  intros Hout. unfold _header_row.
  destruct (col_lookup (report_id self)) as [count|e] eqn:Hcol.
  - apply col_lookup_Ok in Hcol as (code & Hid & Hin).
    exfalso. apply (Hout code Hid).
    change ["TR_J1"; "TR_J3"; "TR_B1"; "TR_B3"] with (layouts.*1).
    apply list_elem_of_fmap. by exists (code, count).
  - apply col_lookup_Raise in Hcol as ->. done.
Qed.

Lemma header_row_unsupported_layout_C7_witness :
  _header_row (Sample.j1_with "TR_J4" "Begin_Date=2020-01-01; End_Date=2020-03-31")
  = Raise KeyError.
Proof.
  apply header_row_unsupported_layout_C7.
  intros code Hid. vm_compute in Hid. injection Hid as <-.
  apply (bool_decide_unpack _). vm_compute. reflexivity.
Defined.

(** What [lower] does to the characters of a text: one character for each,
    the capital letters [A] to [Z], 192 to 214 and 216 to 222 moved up by 32
    and the others kept. *)
Lemma lower_char_code c :
  (((65 <= nat_of_ascii c <= 90) \/ (192 <= nat_of_ascii c <= 214)
    \/ (216 <= nat_of_ascii c <= 222))%nat ->
   nat_of_ascii (lower_char c) = (nat_of_ascii c + 32)%nat)
  /\ (~ ((65 <= nat_of_ascii c <= 90) \/ (192 <= nat_of_ascii c <= 214)
         \/ (216 <= nat_of_ascii c <= 222))%nat ->
      lower_char c = c).
Proof.
  unfold lower_char, is_upper.
  destruct (Nat.leb_spec 65 (nat_of_ascii c)), (Nat.leb_spec (nat_of_ascii c) 90),
    (Nat.leb_spec 192 (nat_of_ascii c)), (Nat.leb_spec (nat_of_ascii c) 214),
    (Nat.leb_spec 216 (nat_of_ascii c)), (Nat.leb_spec (nat_of_ascii c) 222);
    cbn [andb orb]; (split; intros Hc); try lia; try reflexivity;
    apply nat_ascii_embedding; lia.
Qed.

Lemma lower_length s : String.length (lower s) = String.length s.
Proof. induction s as [|c s IH]; simpl; [done|]. by rewrite IH. Qed.

Lemma lower_get s (j : nat) c :
  String.get j s = Some c -> String.get j (lower s) = Some (lower_char c).
Proof.
  revert j. induction s as [|a s IH]; intros j; simpl; [done|].
  destruct j as [|j]; [by intros [= ->]|]. apply IH.
Qed.

(** C1. For a supported layout and a reporting period whose months parse to
    [bm <= em] within 1..12, the month columns are the entries [bm] to [em]
    of the month table; when the identifying header cells are texts the
    header is derived, and a derived header is the lower-cased header cells
    of the columns 1 to the layout's count followed by these months, of
    length the count plus [em - bm + 1]. Lower-cased means: the name at
    each position has the characters of the cell's text, position for
    position, with each capital letter ([A] to [Z], and the code points 192
    to 214 and 216 to 222) replaced by the small letter 32 code points above
    it and every other character kept. *)
Theorem header_row_layout_period_C1 self code count b e bm em :
  report_id self = VStr code -> (code, count) ∈ layouts ->
  begin_date self = Ok b -> end_date self = Ok e ->
  parse_int (str_slice 5 7 b) = Some bm ->
  parse_int (str_slice 5 7 e) = Some em ->
  1 <= bm <= em -> em <= 12 ->
  (Z.of_nat (length (slice bm (em + 1) PERIODS)) = em - bm + 1
   /\ forall i : nat, Z.of_nat i <= em - bm ->
        slice bm (em + 1) PERIODS !! i = PERIODS !! (Z.to_nat bm + i)%nat)
  /\ (forall names, header_cells self count = VStr <$> names ->
        _header_row self
        = Ok ((lower <$> names) ++ slice bm (em + 1) PERIODS)%list)
  /\ (forall h, _header_row self = Ok h ->
        exists names,
          header_cells self count = VStr <$> names
          /\ Z.of_nat (length names) = count
          /\ h = ((lower <$> names) ++ slice bm (em + 1) PERIODS)%list
          /\ Z.of_nat (length h) = count + (em - bm + 1)
          /\ (forall (i : nat) s, names !! i = Some s ->
                exists s',
                  h !! i = Some s'
                  /\ String.length s' = String.length s
                  /\ forall (j : nat) c, String.get j s = Some c ->
                       exists c',
                         String.get j s' = Some c'
                         /\ (((65 <= nat_of_ascii c <= 90)
                              \/ (192 <= nat_of_ascii c <= 214)
                              \/ (216 <= nat_of_ascii c <= 222))%nat ->
                             nat_of_ascii c' = (nat_of_ascii c + 32)%nat)
                         /\ (~ ((65 <= nat_of_ascii c <= 90)
                                \/ (192 <= nat_of_ascii c <= 214)
                                \/ (216 <= nat_of_ascii c <= 222))%nat ->
                             c' = c))
          /\ (forall i : nat, Z.of_nat i <= em - bm ->
                h !! (length names + i)%nat = PERIODS !! (Z.to_nat bm + i)%nat)).
Proof.
  intros Hid Hin Hb He Hbm Hem Hle H12.
  pose proof (layouts_count _ _ Hin) as Hcount.
  assert (Z.of_nat (length (slice bm (em + 1) PERIODS)) = em - bm + 1) as Hmonths
    by (rewrite slice_length; [lia | lia | simpl; lia]).
  assert (forall i : nat, Z.of_nat i <= em - bm ->
            slice bm (em + 1) PERIODS !! i = PERIODS !! (Z.to_nat bm + i)%nat)
    as Hentries by (intros i Hi; apply slice_lookup; lia).
  assert (forall names, header_cells self count = VStr <$> names ->
            _header_row self
            = Ok ((lower <$> names) ++ slice bm (em + 1) PERIODS)%list) as Hderive.
  { intros names Hcells.
    rewrite (header_row_months _ _ _ _ Hid Hin Hcells), Hb. simpl.
    rewrite (int_parse _ _ Hbm). simpl. rewrite He. simpl.
    rewrite (int_parse _ _ Hem). done. }
  split; [split; [done|done]|split; [done|]].
  intros h Hh.
  destruct (header_row_Ok _ _ Hh)
    as (code' & count' & names & months & Hid' & Hin' & Hcells & _).
  assert (code' = code) as -> by congruence.
  assert (count' = count) as ->
    by (apply col_layouts in Hin, Hin'; congruence).
  assert (0 <= count) as Hpos by lia.
  pose proof (header_cells_length _ _ _ Hpos Hcells) as Hlen.
  exists names. split; [done|]. split; [done|].
  rewrite (Hderive names Hcells) in Hh. injection Hh as <-.
  split; [done|]. split; [|split].
  - rewrite length_app, length_fmap, Nat2Z.inj_add, Hlen, Hmonths. done.
  - intros i s Hs. exists (lower s). split; [|split].
    + rewrite lookup_app_l by (rewrite length_fmap; by eapply lookup_lt_Some).
      by rewrite list_lookup_fmap, Hs.
    + apply lower_length.
    + intros j c Hc. exists (lower_char c).
      split; [by apply lower_get|]. apply lower_char_code.
  - intros i Hi.
    rewrite lookup_app_r by (rewrite length_fmap; lia).
    rewrite length_fmap.
    replace (length names + i - length names)%nat with i by lia.
    by apply Hentries.
Qed.

Lemma header_row_layout_period_C1_witness :
  _header_row Sample.j1
  = Ok ["title"; "publisher"; "publisher_id"; "platform"; "doi";
        "proprietary_id"; "print_issn"; "online_issn"; "uri"; "metric_type";
        "reporting_period_total"; "jan"; "feb"; "mar"]
  /\ Z.of_nat (length ["title"; "publisher"; "publisher_id"; "platform"; "doi";
                       "proprietary_id"; "print_issn"; "online_issn"; "uri";
                       "metric_type"; "reporting_period_total";
                       "jan"; "feb"; "mar"])
     = 11 + (3 - 1 + 1).
Proof.
  destruct (header_row_layout_period_C1 Sample.j1 "TR_J1" 11
              "2020-01-01" "2020-03-31" 1 3) as (_ & Hderive & Hform);
    try reflexivity; try lia; [apply layouts_J1|].
  pose proof (Hderive Sample.j1_ids eq_refl) as Hh.
  split; [exact Hh|].
  destruct (Hform _ Hh) as (names & _ & _ & _ & Hlen & _). exact Hlen.
Defined.

(** C9. When the months parse to [em < bm], both within 1..12, the slice of
    the month table is empty and the header is exactly the identifying
    columns; nothing is raised, swapped or wrapped around. *)
Theorem header_row_reversed_period_C9 self code count names b e bm em :
  report_id self = VStr code -> (code, count) ∈ layouts ->
  header_cells self count = VStr <$> names ->
  begin_date self = Ok b -> end_date self = Ok e ->
  parse_int (str_slice 5 7 b) = Some bm ->
  parse_int (str_slice 5 7 e) = Some em ->
  1 <= em < bm -> bm <= 12 ->
  slice bm (em + 1) PERIODS = []
  /\ _header_row self = Ok (lower <$> names)
  /\ Z.of_nat (length (lower <$> names)) = count.
Proof.
  intros Hid Hin Hcells Hb He Hbm Hem Hlt H12.
  assert (slice bm (em + 1) PERIODS = []) as Hnil by (apply slice_empty; lia).
  split; [done|]. split.
  - rewrite (header_row_months _ _ _ _ Hid Hin Hcells), Hb. simpl.
    rewrite (int_parse _ _ Hbm). simpl. rewrite He. simpl.
    rewrite (int_parse _ _ Hem). simpl. by rewrite Hnil, app_nil_r.
  - rewrite length_fmap. apply (header_cells_length self); [|done].
    pose proof (layouts_count _ _ Hin). lia.
Qed.

Lemma header_row_reversed_period_C9_witness :
  _header_row (Sample.j1_with "TR_J1" "Begin_Date=2020-11-01; End_Date=2021-02-28")
  = Ok (lower <$> Sample.j1_ids).
Proof.
  apply (header_row_reversed_period_C9
           (Sample.j1_with "TR_J1" "Begin_Date=2020-11-01; End_Date=2021-02-28")
           "TR_J1" 11 Sample.j1_ids "2020-11-01" "2021-02-28" 11 2);
    try reflexivity; try lia.
  apply layouts_J1.
Defined.

(** C8, as the code has it. With a supported layout and textual header
    cells, the header derivation raises [ValueError] when the characters
    [5:7] of the begin date, or (the begin month being an integer) of the end
    date, are not the text of an integer. When both are integers, whatever
    their values, nothing is raised and the month columns are the slice of
    the month table between them. *)
Theorem header_row_month_parse_C8 self code count names :
  report_id self = VStr code -> (code, count) ∈ layouts ->
  header_cells self count = VStr <$> names ->
  (forall b, begin_date self = Ok b ->
     parse_int (str_slice 5 7 b) = None ->
     _header_row self = Raise ValueError)
  /\ (forall b bm e, begin_date self = Ok b ->
        parse_int (str_slice 5 7 b) = Some bm ->
        end_date self = Ok e ->
        parse_int (str_slice 5 7 e) = None ->
        _header_row self = Raise ValueError)
  /\ (forall b bm e em, begin_date self = Ok b ->
        parse_int (str_slice 5 7 b) = Some bm ->
        end_date self = Ok e ->
        parse_int (str_slice 5 7 e) = Some em ->
        _header_row self
        = Ok ((lower <$> names) ++ slice bm (em + 1) PERIODS)%list).
Proof.
  intros Hid Hin Hcells.
  rewrite (header_row_months _ _ _ _ Hid Hin Hcells).
  split; [|split].
  - intros b -> Hbm. simpl. by rewrite (int_no_parse _ Hbm).
  - intros b bm e -> Hbm -> Hem. simpl.
    rewrite (int_parse _ _ Hbm). simpl. by rewrite (int_no_parse _ Hem).
  - intros b bm e em -> Hbm -> Hem. simpl.
    rewrite (int_parse _ _ Hbm). simpl. by rewrite (int_parse _ _ Hem).
Qed.

Lemma header_row_month_parse_C8_witness :
  _header_row (Sample.j1_with "TR_J1" "Begin_Date=2020-1-01; End_Date=2020-03-31")
  = Raise ValueError
  /\ _header_row (Sample.j1_with "TR_J1" "Begin_Date=2020-00-01; End_Date=2020-03-31")
  = Ok ((lower <$> Sample.j1_ids) ++ [EmptyString; "jan"; "feb"; "mar"])%list.
Proof.
  split.
  - destruct (header_row_month_parse_C8
                (Sample.j1_with "TR_J1" "Begin_Date=2020-1-01; End_Date=2020-03-31")
                "TR_J1" 11 Sample.j1_ids eq_refl layouts_J1 eq_refl)
      as (Hbegin & _ & _).
    apply (Hbegin "2020-1-01"); reflexivity.
  - destruct (header_row_month_parse_C8
                (Sample.j1_with "TR_J1" "Begin_Date=2020-00-01; End_Date=2020-03-31")
                "TR_J1" 11 Sample.j1_ids eq_refl layouts_J1 eq_refl)
      as (_ & _ & Hboth).
    apply (Hboth "2020-00-01" 0 "2020-03-31" 3); reflexivity.
Defined.

(** C8, as stated, fails: a begin month 13 is an integer outside 1..12, and
    the header derivation returns the identifying columns. *)
Lemma header_row_month_13_C8_counterexample :
  begin_date Sample.j1_month_13 = Ok "2020-13-01"
  /\ parse_int (str_slice 5 7 "2020-13-01") = Some 13
  /\ ~ (1 <= 13 <= 12)
  /\ _header_row Sample.j1_month_13 = Ok (lower <$> Sample.j1_ids)
  /\ ~ fails (_header_row Sample.j1_month_13).
Proof.
  repeat split; [lia|].
  intros [e He]. vm_compute in He. discriminate He.
Qed.

End Header.

(** ** The bounds of the data region *)

Section Bounds.

Implicit Types (self : TitleMasterReport) (blank : Z -> bool).

(** The loop stops at the first blank cell, or when the cells run out. *)
Lemma probe_spec blank remaining i :
  let stop := probe blank remaining i in
  i <= stop <= i + Z.of_nat remaining
  /\ (forall j, i <= j < stop -> blank j = false)
  /\ (stop < i + Z.of_nat remaining -> blank stop = true).
Proof.
  revert i. induction remaining as [|k IH]; intros i; simpl.
  - repeat split; lia.
  - destruct (blank i) eqn:Hi.
    + repeat split; try lia. done.
    + destruct (IH (i + 1)) as (Hrange & Hbefore & Hstop).
      split; [lia|]. split.
      * intros j Hj. destruct (decide (j = i)) as [->|Hne]; [done|].
        apply Hbefore. lia.
      * intros Hlt. apply Hstop. lia.
Qed.

Lemma is_none_true v : is_none v = true <-> v = VNone.
Proof. by destruct v. Qed.

Lemma is_none_false v : is_none v = false <-> v <> VNone.
Proof. by destruct v. Qed.

(** The rows found are the rows from the first data row up to the first
    row, at most the last row of a sheet, whose first cell is [None]. *)
Lemma data_rows_spec self :
  exists stop,
    DATA_ROW_START <= stop <= MAX_ROWS + 1
    /\ data_rows self = seqZ DATA_ROW_START (stop - DATA_ROW_START)
    /\ (forall r, DATA_ROW_START <= r < stop ->
          Worksheet.cell_value (_worksheet self) r 1 <> VNone)
    /\ (stop <= MAX_ROWS -> Worksheet.cell_value (_worksheet self) stop 1 = VNone).
Proof.
  unfold data_rows.
  set (blank := fun row => is_none (Worksheet.cell_value (_worksheet self) row 1)).
  set (remaining := Z.to_nat (MAX_ROWS - DATA_ROW_START + 1)).
  assert (Z.of_nat remaining = MAX_ROWS - DATA_ROW_START + 1) as Hrem
    by (subst remaining; rewrite Z2Nat.id; [done | by vm_compute]).
  clearbody remaining.
  destruct (probe_spec blank remaining DATA_ROW_START) as (Hrange & Hbefore & Hstop).
  exists (probe blank remaining DATA_ROW_START).
  split; [lia|]. split; [done|]. split.
  - intros r Hr. apply is_none_false, (Hbefore r Hr).
  - intros Hle. apply is_none_true, Hstop. lia.
Qed.

Lemma data_cols_spec self :
  exists stop,
    DATA_COL_START <= stop <= MAX_COLS + 1
    /\ data_cols self = seqZ DATA_COL_START (stop - DATA_COL_START)
    /\ (forall c, DATA_COL_START <= c < stop ->
          Worksheet.cell_value (_worksheet self) HEADER_ROW c <> VNone)
    /\ (stop <= MAX_COLS ->
          Worksheet.cell_value (_worksheet self) HEADER_ROW stop = VNone).
Proof.
  unfold data_cols.
  set (blank := fun column =>
         is_none (Worksheet.cell_value (_worksheet self) HEADER_ROW column)).
  set (remaining := Z.to_nat (MAX_COLS - DATA_COL_START + 1)).
  assert (Z.of_nat remaining = MAX_COLS - DATA_COL_START + 1) as Hrem
    by (subst remaining; rewrite Z2Nat.id; [done | by vm_compute]).
  clearbody remaining.
  change (probe blank remaining 1) with (probe blank remaining DATA_COL_START).
  destruct (probe_spec blank remaining DATA_COL_START) as (Hrange & Hbefore & Hstop).
  exists (probe blank remaining DATA_COL_START).
  split; [lia|]. split; [done|]. split.
  - intros c Hc. apply is_none_false, (Hbefore c Hc).
  - intros Hle. apply is_none_true, Hstop. lia.
Qed.

(** C4. [data_rows] is the run of row numbers from row 15 up to, and
    without, the first row (at most row [MAX_ROWS]) whose cell in column 1 is
    [None]; [data_cols] is the run of column numbers from 1 up to, and
    without, the first column (at most column [MAX_COLS]) whose cell in the
    header row 14 is [None]. With data in the rows 15 to 20 and row 21 blank
    the rows are 15..20; with row 15 blank there are none. *)
Theorem data_bounds_probe_C4 self :
  (exists stop,
      15 <= stop <= MAX_ROWS + 1
      /\ data_rows self = seqZ 15 (stop - 15)
      /\ (forall r, 15 <= r < stop ->
            Worksheet.cell_value (_worksheet self) r 1 <> VNone)
      /\ (stop <= MAX_ROWS ->
            Worksheet.cell_value (_worksheet self) stop 1 = VNone))
  /\ (exists stop,
      1 <= stop <= MAX_COLS + 1
      /\ data_cols self = seqZ 1 (stop - 1)
      /\ (forall c, 1 <= c < stop ->
            Worksheet.cell_value (_worksheet self) 14 c <> VNone)
      /\ (stop <= MAX_COLS ->
            Worksheet.cell_value (_worksheet self) 14 stop = VNone))
  /\ ((forall r, 15 <= r <= 20 ->
         Worksheet.cell_value (_worksheet self) r 1 <> VNone) ->
      Worksheet.cell_value (_worksheet self) 21 1 = VNone ->
      data_rows self = [15; 16; 17; 18; 19; 20])
  /\ (Worksheet.cell_value (_worksheet self) 15 1 = VNone ->
      data_rows self = []).
Proof.
  pose proof (data_rows_spec self) as Hrows.
  pose proof (data_cols_spec self) as Hcols.
  change DATA_ROW_START with 15 in Hrows.
  change DATA_COL_START with 1 in Hcols. change HEADER_ROW with 14 in Hcols.
  split; [exact Hrows|]. split; [exact Hcols|].
  destruct Hrows as (stop & Hrange & -> & Hbefore & Hstop).
  assert (MAX_ROWS = 1048576) as Hmax by reflexivity.
  split.
  - intros Hdata Hblank.
    assert (stop = 21) as ->; [|done].
    destruct (Z.lt_trichotomy stop 21) as [Hlt|[Heq|Hgt]]; [|done|].
    + exfalso. apply (Hdata stop); [lia|]. apply Hstop. lia.
    + exfalso. apply (Hbefore 21); [lia|]. exact Hblank.
  - intros Hblank.
    assert (stop = 15) as ->; [|done].
    destruct (decide (stop = 15)) as [|Hne]; [done|].
    exfalso. apply (Hbefore 15); [lia|]. exact Hblank.
Qed.

Lemma data_bounds_probe_C4_witness :
  data_rows Sample.j1 = [15; 16; 17; 18; 19; 20]
  /\ data_rows Sample.j1_no_data = [].
Proof.
  split.
  - apply (data_bounds_probe_C4 Sample.j1).
    + intros r Hr.
      assert (r = 15 \/ r = 16 \/ r = 17 \/ r = 18 \/ r = 19 \/ r = 20)
        as [->|[->|[->|[->|[->| ->]]]]] by lia;
        vm_compute; discriminate.
    + reflexivity.
  - apply (data_bounds_probe_C4 Sample.j1_no_data). reflexivity.
Defined.

End Bounds.

(** ** The row extraction *)

Section Rows.

Import Collections.

Implicit Types (self : TitleMasterReport) (h : list string).

Lemma foldl_max_seqZ (k : nat) (a : Z) :
  foldl Z.max a (seqZ (a + 1) (Z.of_nat k)) = a + Z.of_nat k.
Proof.
  revert a. induction k as [|k IH]; intros a.
  - simpl. lia.
  - rewrite seqZ_cons by lia. simpl.
    replace (Z.pred (Z.of_nat (S k))) with (Z.of_nat k) by lia.
    replace (Z.max a (a + 1)) with (a + 1) by lia.
    change (Z.succ (a + 1)) with (a + 1 + 1). rewrite IH. lia.
Qed.

(** The largest of the columns 1 to [m] is [m]. *)
Lemma max_seqZ m : 1 <= m -> Py.max (seqZ 1 m) = Ok m.
Proof.
  intros Hm. rewrite seqZ_cons by lia. simpl.
  pose proof (foldl_max_seqZ (Z.to_nat (m - 1)) 1) as H.
  rewrite Z2Nat.id in H by lia.
  change (Z.succ 1) with (1 + 1). replace (Z.pred m) with (m - 1) by lia.
  rewrite H. f_equal. lia.
Qed.

Lemma datarow_length self n max_col :
  length (datarow self n max_col) = Z.to_nat max_col.
Proof. unfold datarow. by rewrite length_fmap, length_seqZ. Qed.

(** The value extracted for the column [c]. *)
Lemma datarow_lookup self n max_col c :
  1 <= c <= max_col ->
  datarow self n max_col !! Z.to_nat (c - 1)
  = Some (normalize (Worksheet.cell_value (_worksheet self) n c)).
Proof.
  intros Hc. unfold datarow. rewrite list_lookup_fmap.
  rewrite (lookup_seqZ_lt 1 max_col) by lia. simpl.
  do 3 f_equal. lia.
Qed.

(** What [get_row] extracts from a row of the sheet. *)
Lemma iter_cols_datarow self n max_col :
  1 <= n <= 1048576 -> 1 <= max_col ->
  (cols ← Worksheet.iter_cols (_worksheet self) n 1 n max_col;
   Ok (normalize <$> concat cols)) = Ok (datarow self n max_col).
Proof.
  intros Hn Hcol. rewrite iter_cols_row by done. cbn [mbind result_bind].
  rewrite concat_singletons. unfold datarow. by rewrite <- list_fmap_compose.
Qed.

(** A row number the sheet refuses. *)
Lemma iter_cols_out_of_range (ws : Worksheet.t) n max_col :
  1 <= max_col -> n < 0 \/ 1048576 < n ->
  Worksheet.iter_cols ws n 1 n max_col = Raise ValueError.
Proof.
  intros Hcol Hn. unfold Worksheet.iter_cols.
  rewrite bool_decide_eq_false_2 by (by intros (_ & ? & _)).
  unfold Worksheet.or_default. rewrite !bool_decide_eq_false_2 by lia.
  replace (n - n + 1) with 1 by lia. change (seqZ n 1) with [n].
  rewrite seqZ_cons by lia. cbn [mapM].
  assert (Worksheet.cell ws n 1 = Raise ValueError) as ->; [|done].
  unfold Worksheet.cell. case_bool_decide; [done|].
  by rewrite bool_decide_eq_false_2 by lia.
Qed.

(** When the header derivation succeeds the header row is not blank, so the
    last data column exists: it is the number of columns found. *)
Lemma header_row_Ok_max_col self h :
  _header_row self = Ok h ->
  exists max_col,
    1 <= max_col
    /\ Py.max (data_cols self) = Ok max_col
    /\ length (data_cols self) = Z.to_nat max_col.
Proof.
  intros (code & count & names & months & Hid & Hin & Hcells & _)%header_row_Ok.
  destruct (data_cols_spec self) as (stop & Hrange & Hcols & Hbefore & Hstop).
  change DATA_COL_START with 1 in *.
  pose proof (layouts_count _ _ Hin) as Hcount.
  assert (2 <= stop) as Hstop2.
  { destruct (Z.lt_ge_cases stop 2) as [Hlt|]; [|done].
    assert (stop = 1) as -> by lia.
    assert (Worksheet.cell_value (_worksheet self) HEADER_ROW 1 = VNone) as Hnone
      by (apply Hstop; by vm_compute).
    unfold header_cells in Hcells. rewrite seqZ_cons in Hcells by lia.
    destruct names as [|s names]; [done|].
    rewrite !fmap_cons in Hcells. injection Hcells as Hc _. congruence. }
  exists (stop - 1). split; [lia|]. rewrite Hcols.
  split; [by apply max_seqZ; lia | by rewrite length_seqZ].
Qed.

Lemma namedtuple_Ok name h row_spec :
  namedtuple name h = Ok row_spec <->
  valid_names name h = true /\ row_spec = {| typename := name; _fields := h |}.
Proof.
  unfold namedtuple. destruct (valid_names name h); split;
    try (intros [= <-]); try (intros [? ->]); done.
Qed.

Lemma namedtuple_Raise name h e :
  namedtuple name h = Raise e -> valid_names name h = false /\ e = ValueError.
Proof. unfold namedtuple. destruct (valid_names name h); by intros [= <-]. Qed.

Lemma make_Ok cls vs rec :
  _make cls vs = Ok rec <->
  length vs = length (_fields cls) /\ rec = {| type_of := cls; values := vs |}.
Proof.
  unfold _make. case_bool_decide; split;
    try (intros [= <-]); try (intros [? ->]); done.
Qed.

Lemma make_Raise cls vs :
  length vs <> length (_fields cls) -> _make cls vs = Raise TypeError.
Proof. intros H. unfold _make. by rewrite bool_decide_eq_false_2. Qed.

(** [get_row] once the header and the last column are known. *)
Lemma get_row_steps self n h max_col :
  _header_row self = Ok h -> Py.max (data_cols self) = Ok max_col ->
  get_row self n =
    (row_spec ← namedtuple "ReportRow" h;
     cols ← Worksheet.iter_cols (_worksheet self) n 1 n max_col;
     _make row_spec (normalize <$> concat cols)).
Proof.
  intros Hh. unfold get_row. rewrite Hh.
  generalize (data_cols self). intros found Hmax.
  cbn [mbind result_bind].
  destruct (namedtuple "ReportRow" h) as [row_spec|e]; [|reflexivity].
  cbn [mbind result_bind]. rewrite Hmax. reflexivity.
Qed.

(** ... for a row of the sheet ... *)
Lemma get_row_unfold self n h max_col :
  _header_row self = Ok h -> Py.max (data_cols self) = Ok max_col ->
  1 <= n <= 1048576 -> 1 <= max_col ->
  get_row self n =
    (row_spec ← namedtuple "ReportRow" h; _make row_spec (datarow self n max_col)).
Proof.
  intros Hh Hmax Hn Hcol. rewrite (get_row_steps _ _ _ _ Hh Hmax).
  destruct (namedtuple "ReportRow" h) as [row_spec|e]; [|reflexivity].
  cbn [mbind result_bind]. rewrite iter_cols_row by done.
  cbn [mbind result_bind]. rewrite concat_singletons.
  unfold datarow. by rewrite <- list_fmap_compose.
Qed.

(** ... and for a row number the sheet refuses. *)
Lemma get_row_out_of_range self n h :
  _header_row self = Ok h -> n < 0 \/ 1048576 < n ->
  get_row self n = Raise ValueError.
Proof.
  intros Hh Hn.
  destruct (header_row_Ok_max_col _ _ Hh) as (max_col & Hpos & Hmax & _).
  rewrite (get_row_steps _ _ _ _ Hh Hmax).
  destruct (namedtuple "ReportRow" h) as [row_spec|e] eqn:Hnt.
  - cbn [mbind result_bind]. by rewrite iter_cols_out_of_range.
  - by apply namedtuple_Raise in Hnt as [_ ->].
Qed.

Lemma get_row_names_refused self n h :
  _header_row self = Ok h -> valid_names "ReportRow" h = false ->
  get_row self n = Raise ValueError.
Proof.
  intros Hh Hvalid.
  destruct (header_row_Ok_max_col _ _ Hh) as (max_col & Hpos & Hmax & _).
  rewrite (get_row_steps _ _ _ _ Hh Hmax). unfold namedtuple.
  by rewrite Hvalid.
Qed.

(** A record that [get_row] returns has the header as its fields and as many
    values as fields. *)
Lemma get_row_record self n h rec :
  _header_row self = Ok h -> get_row self n = Ok rec ->
  _fields (type_of rec) = h /\ length (values rec) = length h.
Proof.
  intros Hh.
  destruct (header_row_Ok_max_col _ _ Hh) as (max_col & Hpos & Hmax & _).
  rewrite (get_row_steps _ _ _ _ Hh Hmax).
  destruct (namedtuple "ReportRow" h) as [row_spec|e] eqn:Hnt; [|done].
  apply namedtuple_Ok in Hnt as [_ ->]. cbn [mbind result_bind].
  destruct (Worksheet.iter_cols _ _ _ _ _) as [cols|]; [|done].
  cbn [mbind result_bind]. by intros [Hlen ->]%make_Ok.
Qed.




End Rows.


(** ** Further properties of the report identity *)

Section PeriodFormat.

Implicit Types (self : TitleMasterReport).

Lemma append_cons_assoc (a b : string) c (d : string) :
  ((a ++ String c b) ++ d)%string = (a ++ String c (b ++ d))%string.
Proof.
  induction a as [|x a IH]; [done|].
  change (String x ((a ++ String c b) ++ d)%string
          = String x (a ++ String c (b ++ d))%string).
  f_equal. exact IH.
Qed.

Lemma append_empty_r (a : string) : (a ++ EmptyString)%string = a.
Proof.
  induction a as [|x a IH]; [done|].
  change (String x (a ++ EmptyString)%string = String x a). by rewrite IH.
Qed.

Lemma has_char_app c (a b : string) :
  has_char c (a ++ b)%string = (has_char c a || has_char c b)%bool.
Proof.
  induction a as [|x a IH]; [done|].
  change (has_char c (String x (a ++ b)%string)
          = (has_char c (String x a) || has_char c b)%bool).
  simpl. rewrite IH. by rewrite orb_assoc.
Qed.

(** X1. A reporting period written as two [key=value] entries separated by
    a semicolon, possibly followed by further entries, is read back: when
    keys and values hold neither [;] nor [=], [begin_date] is the first
    value and [end_date] the second. *)
Theorem period_dates_round_trip self k0 d0 k1 d1 rest :
  has_char ";" k0 = false -> has_char "=" k0 = false ->
  has_char ";" d0 = false -> has_char "=" d0 = false ->
  has_char ";" k1 = false -> has_char "=" k1 = false ->
  has_char ";" d1 = false -> has_char "=" d1 = false ->
  rest = EmptyString \/ (exists more, rest = String ";" more) ->
  _reporting_period self
  = VStr (k0 ++ String "=" (d0 ++ String ";" (k1 ++ String "=" (d1 ++ rest)))) ->
  begin_date self = Ok d0 /\ end_date self = Ok d1.
Proof.
  intros Hk0 Hk0' Hd0 Hd0' Hk1 Hk1' Hd1 Hd1' Hrest Hrp.
  assert (has_char ";" (k0 ++ String "=" d0)%string = false) as He0.
  { rewrite has_char_app. simpl. by rewrite Hk0, Hd0. }
  assert (has_char ";" (k1 ++ String "=" d1)%string = false) as He1.
  { rewrite has_char_app. simpl. by rewrite Hk1, Hd1. }
  assert (exists es,
    split ";" (k0 ++ String "=" (d0 ++ String ";" (k1 ++ String "=" (d1 ++ rest))))
    = (k0 ++ String "=" d0)%string :: (k1 ++ String "=" d1)%string :: es)
    as [es Hsplit].
  { rewrite <- (append_cons_assoc k0 d0 "=").
    rewrite (split_app_sep _ _ _ He0).
    destruct Hrest as [->|[more ->]].
    - exists []. f_equal.
      rewrite append_empty_r. by apply split_no_sep.
    - exists (split ";" more). rewrite <- (append_cons_assoc k1 d1 "=").
      by rewrite (split_app_sep _ _ _ He1). }
  assert (forall i k d, split ";" (k0 ++ String "=" (d0 ++ String ";"
                          (k1 ++ String "=" (d1 ++ rest)))) !! i
                        = Some (k ++ String "=" d)%string ->
            has_char "=" k = false -> has_char "=" d = false ->
            period_value self i = Ok d) as Hvalue.
  { intros i k d Hi Hk Hd.
    rewrite (period_value_entry _ _ _ _ Hrp Hi).
    by rewrite (split_app_sep _ _ _ Hk), (split_no_sep _ _ Hd). }
  split.
  - apply (Hvalue 0%nat k0 d0); [by rewrite Hsplit|done|done].
  - apply (Hvalue 1%nat k1 d1); [by rewrite Hsplit|done|done].
Qed.

Lemma period_dates_round_trip_witness :
  begin_date Sample.j1 = Ok "2020-01-01" /\ end_date Sample.j1 = Ok "2020-03-31".
Proof.
  apply (period_dates_round_trip Sample.j1
           "Begin_Date" "2020-01-01" " End_Date" "2020-03-31" EmptyString);
    try reflexivity.
  by left.
Defined.

(** The only failures of the two accessors. *)
Lemma period_value_Raise self i e :
  period_value self i = Raise e ->
  (e = AttributeError /\ forall rp, _reporting_period self <> VStr rp)
  \/ (e = IndexError /\ exists rp, _reporting_period self = VStr rp).
Proof.
  unfold period_value.
  destruct (_reporting_period self) as [|rp| | |] eqn:Hrp; simpl;
    try (intros [= <-]; by left).
  intros He. right. split; [|by eauto].
  unfold index in He.
  destruct (split ";" rp !! i) as [entry|]; simpl in He; [|congruence].
  destruct (split "=" entry !! 1%nat); congruence.
Qed.

(** X2. When the cell of the reporting period is blank, or holds anything
    but a text, [begin_date] and [end_date] raise [AttributeError], and the
    header derivation returns no header; when the cell of the layout code
    holds no text, [title_type] raises [TypeError]. *)
Theorem metadata_not_text self :
  ((forall rp, _reporting_period self <> VStr rp) ->
     begin_date self = Raise AttributeError
     /\ end_date self = Raise AttributeError
     /\ fails (_header_row self))
  /\ ((forall code, report_id self <> VStr code) ->
      title_type self = Raise TypeError).
Proof.
  split.
  - intros Hrp.
    assert (forall i, period_value self i = Raise AttributeError) as Hpv.
    { intros i. unfold period_value.
      destruct (_reporting_period self) as [|rp| | |]; try done.
      by destruct (Hrp rp). }
    split; [apply Hpv|]. split; [apply Hpv|].
    unfold fails, _header_row.
    destruct (col_lookup (report_id self)) as [max_col|]; simpl; [|by eauto].
    destruct (Worksheet.iter_cols _ _ _ _ _) as [cols|]; simpl; [|by eauto].
    destruct (mapM _ _) as [header|]; simpl; [|by eauto].
    unfold begin_date. rewrite Hpv. simpl. by eauto.
  - intros Hid. unfold title_type.
    destruct (report_id self) as [|code| | |]; try done.
    by destruct (Hid code).
Qed.

Lemma metadata_not_text_witness :
  begin_date (init "blank.xlsx" ∅) = Raise AttributeError
  /\ title_type (init "blank.xlsx" ∅) = Raise TypeError.
Proof.
  destruct (metadata_not_text (init "blank.xlsx" ∅)) as [Hperiod Hid].
  split.
  - apply Hperiod. intros rp H. vm_compute in H. discriminate H.
  - apply Hid. intros code H. vm_compute in H. discriminate H.
Defined.

End PeriodFormat.

(** ** Further properties of the header derivation *)

Section HeaderOutcome.

Implicit Types (self : TitleMasterReport) (h names : list string).

Lemma mapM_lower_not_text (cells : list pyval) v :
  v ∈ cells -> (forall s, v <> VStr s) ->
  mapM lower_value cells = Raise AttributeError.
Proof.
  intros Hin Hv. induction cells as [|x cells IH]; [by apply elem_of_nil in Hin|].
  simpl. destruct x as [|s| | |]; try done. simpl.
  apply elem_of_cons in Hin as [->|Hin]; [by destruct (Hv s)|].
  by rewrite (IH Hin).
Qed.

Lemma mapM_lower_Raise (cells : list pyval) e :
  mapM lower_value cells = Raise e ->
  e = AttributeError /\ exists v, v ∈ cells /\ forall s, v <> VStr s.
Proof.
  induction cells as [|x cells IH]; simpl; [done|].
  destruct x as [|s| | |]; simpl;
    try (intros [= <-]; split; [done|]; eexists; split; [by left|done]).
  destruct (mapM lower_value cells) as [hs|e'] eqn:Hm; simpl; [done|].
  intros [= <-]. destruct (IH eq_refl) as (-> & v & Hin & Hv).
  split; [done|]. exists v. split; [by right|done].
Qed.

Lemma header_cells_elem self count v :
  v ∈ header_cells self count <->
  exists c, 1 <= c <= count
            /\ v = Worksheet.cell_value (_worksheet self) HEADER_ROW c.
Proof.
  unfold header_cells. rewrite list_elem_of_fmap. split.
  - intros (c & -> & Hc%elem_of_seqZ). exists c. split; [lia|done].
  - intros (c & Hc & ->). exists c. split; [done|]. apply elem_of_seqZ. lia.
Qed.

(** [_header_row] once the layout is known. *)
Lemma header_row_supported self code count :
  report_id self = VStr code -> (code, count) ∈ layouts ->
  _header_row self =
    (header ← mapM lower_value (header_cells self count);
     b ← begin_date self;
     start_month ← int (str_slice 5 7 b);
     e ← end_date self;
     end_month ← int (str_slice 5 7 e);
     Ok (header ++ slice start_month (end_month + 1) PERIODS)%list).
Proof.
  exact (header_row_known_layout self code count).
Qed.

Lemma col_lookup_cases key :
  (exists code count, key = VStr code /\ (code, count) ∈ layouts
                      /\ col_lookup key = Ok count)
  \/ ((forall code count, key = VStr code -> (code, count) ∉ layouts)
      /\ col_lookup key = Raise KeyError).
Proof.
  destruct (col_lookup key) as [count|e] eqn:Hcol.
  - left. apply col_lookup_Ok in Hcol as (code & -> & Hin). by eauto.
  - right. rewrite (col_lookup_Raise _ _ Hcol) in *. split; [|done].
    intros code count -> Hin.
    assert (col_lookup (VStr code) = Ok count) by (apply col_lookup_Ok; eauto).
    congruence.
Qed.

(** X3. With a supported layout, an identifying header cell that is blank or
    holds anything but a text makes the header derivation raise
    [AttributeError], whatever the reporting period is. *)
Theorem header_row_identifying_cell_not_text self code count c :
  report_id self = VStr code -> (code, count) ∈ layouts ->
  1 <= c <= count ->
  (forall s, Worksheet.cell_value (_worksheet self) HEADER_ROW c <> VStr s) ->
  _header_row self = Raise AttributeError.
Proof.
  intros Hid Hin Hc Hcell.
  rewrite (header_row_supported _ _ _ Hid Hin).
  rewrite (mapM_lower_not_text _ _ (proj2 (header_cells_elem self count _)
             (ex_intro _ c (conj Hc eq_refl))) Hcell).
  done.
Qed.

Lemma header_row_identifying_cell_not_text_witness :
  _header_row (init "short.xlsx"
                 (Sample.sheet (VStr "TR_J3")
                    (VStr "Begin_Date=2020-01-01; End_Date=2020-03-31")
                    (VStr <$> Sample.j1_ids) []))
  = Raise AttributeError.
Proof.
  apply (header_row_identifying_cell_not_text _ "TR_J3" 12 12).
  - reflexivity.
  - apply (bool_decide_unpack _). vm_compute. reflexivity.
  - lia.
  - intros s H. vm_compute in H. discriminate H.
Defined.

(** What a derived header tells about the report. *)
Lemma header_row_inv self h :
  _header_row self = Ok h ->
  exists code count names b e bm em,
    report_id self = VStr code /\ (code, count) ∈ layouts
    /\ header_cells self count = VStr <$> names
    /\ begin_date self = Ok b /\ parse_int (str_slice 5 7 b) = Some bm
    /\ end_date self = Ok e /\ parse_int (str_slice 5 7 e) = Some em
    /\ h = ((lower <$> names) ++ slice bm (em + 1) PERIODS)%list.
Proof.
  intros Hh.
  destruct (col_lookup_cases (report_id self))
    as [(code & count & Hid & Hin & _)|[_ Hkey]];
    [|unfold _header_row in Hh; by rewrite Hkey in Hh].
  rewrite (header_row_supported _ _ _ Hid Hin) in Hh.
  destruct (mapM lower_value _) as [header|] eqn:Hmap; simpl in Hh; [|done].
  apply mapM_lower_Ok in Hmap as (names & Hcells & ->).
  destruct (begin_date self) as [b|]; simpl in Hh; [|done].
  unfold int in Hh.
  destruct (parse_int (str_slice 5 7 b)) as [bm|] eqn:Hbm; simpl in Hh; [|done].
  destruct (end_date self) as [e|]; simpl in Hh; [|done].
  destruct (parse_int (str_slice 5 7 e)) as [em|] eqn:Hem; simpl in Hh; [|done].
  injection Hh as <-. by exists code, count, names, b, e, bm, em.
Qed.

(** X5. The exception tells the cause: the header derivation raises
    [KeyError] exactly when the layout code is not one of the four, and it
    never raises [TypeError]. *)
Theorem header_row_error_kinds self :
  (_header_row self = Raise KeyError <->
   forall code count, report_id self = VStr code -> (code, count) ∉ layouts)
  /\ _header_row self <> Raise TypeError.
Proof.
  destruct (col_lookup_cases (report_id self))
    as [(code & count & Hid & Hin & _)|[Hout Hkey]].
  - assert (forall e, _header_row self = Raise e ->
              e = AttributeError \/ e = IndexError \/ e = ValueError) as Hkinds.
    { intros e. rewrite (header_row_supported _ _ _ Hid Hin).
      destruct (mapM lower_value _) as [header|e1] eqn:Hmap; simpl;
        [|intros [= <-]; left; by apply mapM_lower_Raise in Hmap as [-> _]].
      unfold begin_date, end_date.
      destruct (period_value self 0) as [b|e1] eqn:Hb; simpl;
        [|intros [= <-];
          apply period_value_Raise in Hb as [[-> _]|[-> _]]; by auto].
      unfold int.
      destruct (parse_int (str_slice 5 7 b)); simpl;
        [|intros [= <-]; by auto].
      destruct (period_value self 1) as [e'|e1] eqn:He; simpl;
        [|intros [= <-];
          apply period_value_Raise in He as [[-> _]|[-> _]]; by auto].
      destruct (parse_int (str_slice 5 7 e')); simpl; [done|].
      intros [= <-]. by auto. }
    split; [split|].
    + intros [?|[?|?]]%Hkinds; done.
    + intros Hout. by destruct (Hout code count Hid).
    + intros [?|[?|?]]%Hkinds; done.
  - unfold _header_row. rewrite Hkey. simpl. split; [|done].
    split; [intros _; exact Hout | done].
Qed.

Lemma header_row_error_kinds_witness :
  _header_row (Sample.j1_with "TR_J4" "Begin_Date=2020-01-01; End_Date=2020-03-31")
  = Raise KeyError.
Proof.
  apply header_row_error_kinds.
  intros code count Hid Hin. vm_compute in Hid. injection Hid as <-.
  apply col_layouts in Hin. vm_compute in Hin. discriminate Hin.
Defined.

(** A slice is a run of consecutive entries of the list, whatever the bounds
    are. *)
Lemma slice_segment {A} (lo hi : Z) (l : list A) :
  exists pre post, l = (pre ++ slice lo hi l ++ post)%list.
Proof.
  unfold slice.
  set (m := Z.to_nat (clamp_index (Z.of_nat (length l)) lo)).
  set (k := Z.to_nat (clamp_index (Z.of_nat (length l)) hi
                      - clamp_index (Z.of_nat (length l)) lo)).
  exists (take m l), (drop k (drop m l)).
  by rewrite (take_drop k (drop m l)), take_drop.
Qed.

Lemma lower_char_idem c : lower_char (lower_char c) = lower_char c.
Proof. destruct c as [[] [] [] [] [] [] [] []]; reflexivity. Qed.

Lemma lower_idem s : lower (lower s) = lower s.
Proof.
  induction s as [|c s IH]; simpl; [done|]. by rewrite lower_char_idem, IH.
Qed.

Lemma PERIODS_lower : Forall (fun month => lower month = month) PERIODS.
Proof. unfold PERIODS. repeat constructor. Qed.

(** X6. A derived header is the identifying names, as many as the layout
    has, followed by a run of consecutive entries of the month table: it has
    at least as many names as the layout has identifying columns and at most
    13 more, so between 11 and 27. *)
Theorem header_row_length_bounds self h :
  _header_row self = Ok h ->
  exists code count names months,
    report_id self = VStr code /\ (code, count) ∈ layouts
    /\ h = ((lower <$> names) ++ months)%list
    /\ Z.of_nat (length names) = count
    /\ (exists pre post, PERIODS = (pre ++ months ++ post)%list)
    /\ count <= Z.of_nat (length h) <= count + 13
    /\ 11 <= Z.of_nat (length h) <= 27.
Proof.
  intros (code & count & names & b & e & bm & em
          & Hid & Hin & Hcells & _ & _ & _ & _ & ->)%header_row_inv.
  pose proof (layouts_count _ _ Hin) as Hcount.
  assert (0 <= count) as Hpos by lia.
  pose proof (header_cells_length _ _ _ Hpos Hcells) as Hlen.
  destruct (slice_segment bm (em + 1) PERIODS) as (pre & post & Hseg).
  assert (length (slice bm (em + 1) PERIODS) <= 13)%nat as Hmonths.
  { apply (f_equal length) in Hseg. rewrite !length_app in Hseg.
    change (length PERIODS) with 13%nat in Hseg. lia. }
  exists code, count, names, (slice bm (em + 1) PERIODS).
  split; [done|]. split; [done|]. split; [done|]. split; [done|].
  split; [by exists pre, post|].
  rewrite length_app, length_fmap. lia.
Qed.

Lemma header_row_length_bounds_witness :
  exists h, _header_row Sample.j1 = Ok h /\ 11 <= Z.of_nat (length h) <= 27.
Proof.
  exists ((lower <$> Sample.j1_ids) ++ ["jan"; "feb"; "mar"])%list.
  assert (_header_row Sample.j1
          = Ok ((lower <$> Sample.j1_ids) ++ ["jan"; "feb"; "mar"])%list) as Hh
    by reflexivity.
  split; [exact Hh|].
  destruct (header_row_length_bounds _ _ Hh)
    as (code & count & names & months & _ & _ & _ & _ & _ & _ & Hbounds).
  exact Hbounds.
Defined.

(** X7. Every name of a derived header is in lower case: lower-casing it
    again changes nothing. *)
Theorem header_row_lower_case self h name :
  _header_row self = Ok h -> name ∈ h -> lower name = name.
Proof.
  intros (code & count & names & b & e & bm & em
          & _ & _ & _ & _ & _ & _ & _ & ->)%header_row_inv.
  intros [Hin|Hin]%elem_of_app.
  - apply list_elem_of_fmap in Hin as (s & -> & _). apply lower_idem.
  - destruct (slice_segment bm (em + 1) PERIODS) as (pre & post & Hseg).
    pose proof PERIODS_lower as Hall. rewrite Hseg in Hall.
    rewrite !Forall_app in Hall. destruct Hall as (_ & Hall & _).
    rewrite Forall_forall in Hall. by apply Hall.
Qed.

Lemma header_row_lower_case_witness : lower "print_issn" = "print_issn".
Proof.
  apply (header_row_lower_case Sample.j1
           ((lower <$> Sample.j1_ids) ++ ["jan"; "feb"; "mar"])%list).
  - reflexivity.
  - apply (bool_decide_unpack _). vm_compute. reflexivity.
Defined.

(** X8. When the header is derived, [title_type] succeeds too, with [J] for
    the layouts of 11 or 12 identifying columns and [B] for those of 13 or
    14. *)
Theorem header_row_title_type self h :
  _header_row self = Ok h ->
  exists code count,
    report_id self = VStr code /\ (code, count) ∈ layouts
    /\ title_type self = Ok (if count <=? 12 then "J" else "B").
Proof.
  intros (code & count & names & b & e & bm & em
          & Hid & Hin & _)%header_row_inv.
  exists code, count. split; [done|]. split; [done|].
  unfold title_type. rewrite Hid.
  unfold layouts in Hin. rewrite !elem_of_cons, elem_of_nil in Hin.
  destruct Hin as [H|[H|[H|[H|[]]]]]; injection H as -> ->; reflexivity.
Qed.

Lemma header_row_title_type_witness : title_type Sample.j1 = Ok "J".
Proof.
  assert (_header_row Sample.j1
          = Ok ((lower <$> Sample.j1_ids) ++ ["jan"; "feb"; "mar"])%list) as Hh
    by reflexivity.
  destruct (header_row_title_type _ _ Hh) as (code & count & Hid & Hin & Htype).
  vm_compute in Hid. injection Hid as <-.
  apply col_layouts in Hin. vm_compute in Hin. injection Hin as <-.
  exact Htype.
Defined.

(** X9. The header derivation reads the layout code, the reporting period
    and the header cells of the columns 1 to 14, and nothing else: two
    reports that agree on these have the same outcome. *)
Theorem header_row_frame self1 self2 :
  report_id self1 = report_id self2 ->
  _reporting_period self1 = _reporting_period self2 ->
  (forall c, 1 <= c <= 14 ->
     Worksheet.cell_value (_worksheet self1) HEADER_ROW c
     = Worksheet.cell_value (_worksheet self2) HEADER_ROW c) ->
  _header_row self1 = _header_row self2.
Proof.
  intros Hid Hrp Hcells.
  assert (forall i, period_value self1 i = period_value self2 i) as Hpv
    by (intros i; unfold period_value; by rewrite Hrp).
  destruct (col_lookup_cases (report_id self1))
    as [(code & count & Hid1 & Hin & _)|[_ Hkey]].
  - assert (report_id self2 = VStr code) as Hid2 by congruence.
    rewrite (header_row_supported _ _ _ Hid1 Hin).
    rewrite (header_row_supported _ _ _ Hid2 Hin).
    pose proof (layouts_count _ _ Hin) as Hcount.
    assert (header_cells self1 count = header_cells self2 count) as ->.
    { unfold header_cells. apply list_fmap_ext. intros i c Hc.
      apply list_elem_of_lookup_2, elem_of_seqZ in Hc. apply Hcells. lia. }
    unfold begin_date, end_date. by rewrite !Hpv.
  - unfold _header_row. rewrite <- Hid, Hkey. done.
Qed.

Lemma header_row_frame_witness :
  _header_row Sample.j1_no_data = _header_row Sample.j1.
Proof.
  apply header_row_frame; [reflexivity | reflexivity |].
  intros c Hc.
  assert (c = 1 \/ c = 2 \/ c = 3 \/ c = 4 \/ c = 5 \/ c = 6 \/ c = 7 \/ c = 8
          \/ c = 9 \/ c = 10 \/ c = 11 \/ c = 12 \/ c = 13 \/ c = 14)
    as [->|[->|[->|[->|[->|[->|[->|[->|[->|[->|[->|[->|[->| ->]]]]]]]]]]]]]
    by lia; reflexivity.
Defined.

End HeaderOutcome.

(** ** Further properties of the probes and of the row extraction *)

Section RowsOutcome.

Import Collections.

Implicit Types (self : TitleMasterReport) (h : list string).

(** X10. A row belongs to [data_rows] exactly when it is a row from 15 to
    [MAX_ROWS] and no row from 15 up to it has a blank first cell; likewise
    for [data_cols] and the cells of the header row. Rows and columns after
    a first blank are never found. *)
Theorem data_bounds_membership self :
  (forall r, r ∈ data_rows self <->
     15 <= r <= MAX_ROWS
     /\ forall r', 15 <= r' <= r ->
          Worksheet.cell_value (_worksheet self) r' 1 <> VNone)
  /\ (forall c, c ∈ data_cols self <->
     1 <= c <= MAX_COLS
     /\ forall c', 1 <= c' <= c ->
          Worksheet.cell_value (_worksheet self) HEADER_ROW c' <> VNone).
Proof.
  split.
  - intros r.
    destruct (data_rows_spec self) as (stop & Hrange & -> & Hbefore & Hstop).
    change DATA_ROW_START with 15 in *. rewrite elem_of_seqZ. split.
    + intros Hr. split; [lia|]. intros r' Hr'. apply Hbefore. lia.
    + intros [Hr Hfilled].
      destruct (Z.lt_ge_cases r stop) as [|Hge]; [lia|].
      exfalso. apply (Hfilled stop); [lia|]. apply Hstop. lia.
  - intros c.
    destruct (data_cols_spec self) as (stop & Hrange & -> & Hbefore & Hstop).
    change DATA_COL_START with 1 in *. rewrite elem_of_seqZ. split.
    + intros Hc. split; [lia|]. intros c' Hc'. apply Hbefore. lia.
    + intros [Hc Hfilled].
      destruct (Z.lt_ge_cases c stop) as [|Hge]; [lia|].
      exfalso. apply (Hfilled stop); [lia|]. apply Hstop. lia.
Qed.

Lemma data_bounds_membership_witness :
  20 ∈ data_rows Sample.j1 /\ 21 ∉ data_rows Sample.j1.
Proof.
  destruct (data_bounds_membership Sample.j1) as [Hrows _].
  split.
  - apply Hrows. split; [by vm_compute|]. intros r' Hr'.
    assert (r' = 15 \/ r' = 16 \/ r' = 17 \/ r' = 18 \/ r' = 19 \/ r' = 20)
      as [->|[->|[->|[->|[->| ->]]]]] by lia;
      vm_compute; discriminate.
  - intros [_ Hfilled]%Hrows. apply (Hfilled 21); [lia|]. reflexivity.
Defined.

(** The columns found are the run from 1 to their number. *)
Lemma data_cols_run self :
  data_cols self = seqZ 1 (Z.of_nat (length (data_cols self))).
Proof.
  destruct (data_cols_spec self) as (stop & Hrange & Hcols & _).
  change DATA_COL_START with 1 in *.
  rewrite Hcols at 2. rewrite length_seqZ, Z2Nat.id by lia. exact Hcols.
Qed.

Lemma header_cells_text self count names c :
  header_cells self count = VStr <$> names -> 1 <= c <= count ->
  exists s, Worksheet.cell_value (_worksheet self) HEADER_ROW c = VStr s.
Proof.
  intros Hcells Hc.
  assert (Worksheet.cell_value (_worksheet self) HEADER_ROW c
          ∈ header_cells self count) as Hin
    by (apply header_cells_elem; by exists c).
  rewrite Hcells in Hin. apply list_elem_of_fmap in Hin as (s & -> & _).
  by exists s.
Qed.

(** Textual header cells in the columns 1 to [count] are found by
    [data_cols]. *)
Lemma textual_cells_found self count names :
  header_cells self count = VStr <$> names -> 1 <= count <= 14 ->
  count <= Z.of_nat (length (data_cols self))
  /\ Py.max (data_cols self) = Ok (Z.of_nat (length (data_cols self))).
Proof.
  intros Hcells Hcount.
  assert (count <= Z.of_nat (length (data_cols self))) as Hcols.
  { destruct (data_cols_spec self) as (stop & Hrange & Hcols & _ & Hstop).
    change DATA_COL_START with 1 in *.
    rewrite Hcols, length_seqZ.
    destruct (Z.lt_ge_cases count stop) as [|Hge]; [lia|].
    destruct (header_cells_text _ _ _ stop Hcells) as [s Hs]; [lia|].
    rewrite Hstop in Hs; [done|]. change MAX_COLS with 16384. lia. }
  split; [done|].
  rewrite (data_cols_run self) at 1. apply max_seqZ. lia.
Qed.

(** X11. When the header is derived, the header row has a text in each of
    the layout's identifying columns, so [data_cols] finds at least that
    many columns and the [max] of them in [get_row] cannot fail. *)
Theorem header_row_columns self h :
  _header_row self = Ok h ->
  exists code count,
    report_id self = VStr code /\ (code, count) ∈ layouts
    /\ count <= Z.of_nat (length (data_cols self))
    /\ Py.max (data_cols self) = Ok (Z.of_nat (length (data_cols self))).
Proof.
  intros (code & count & names & b & e & bm & em
          & Hid & Hin & Hcells & _)%header_row_inv.
  pose proof (layouts_count _ _ Hin) as Hcount.
  exists code, count. split; [done|]. split; [done|].
  apply (textual_cells_found _ _ _ Hcells). lia.
Qed.

Lemma header_row_columns_witness :
  11 <= Z.of_nat (length (data_cols Sample.j1)).
Proof.
  assert (_header_row Sample.j1
          = Ok ((lower <$> Sample.j1_ids) ++ ["jan"; "feb"; "mar"])%list) as Hh
    by reflexivity.
  destruct (header_row_columns _ _ Hh) as (code & count & Hid & Hin & Hcols & _).
  vm_compute in Hid. injection Hid as <-.
  apply col_layouts in Hin. vm_compute in Hin. injection Hin as <-.
  exact Hcols.
Defined.

Lemma get_row_header_Raise self n e :
  _header_row self = Raise e -> get_row self n = Raise e.
Proof. intros Hh. unfold get_row. rewrite Hh. reflexivity. Qed.

(** [get_row] on a row of the sheet, once the header is derived. *)
Lemma get_row_derived self n h :
  _header_row self = Ok h -> 1 <= n <= 1048576 ->
  get_row self n =
    (row_spec ← namedtuple "ReportRow" h;
     _make row_spec (datarow self n (Z.of_nat (length (data_cols self))))).
Proof.
  intros Hh Hn.
  destruct (header_row_inv _ _ Hh)
    as (code & count & names & b & e & bm & em & _ & Hin & Hcells & _).
  pose proof (layouts_count _ _ Hin) as Hcount.
  destruct (textual_cells_found _ _ _ Hcells) as [Hfound Hmax]; [lia|].
  apply (get_row_unfold _ _ _ _ Hh Hmax Hn). lia.
Qed.

(** Making the record from the values of [k] columns. *)
Lemma named_row_Ok self n h (k : nat) rec :
  (row_spec ← namedtuple "ReportRow" h;
   _make row_spec (datarow self n (Z.of_nat k))) = Ok rec
  <-> valid_names "ReportRow" h = true
      /\ k = length h
      /\ rec = {| type_of := {| typename := "ReportRow"; _fields := h |};
                  values := datarow self n (Z.of_nat (length h)) |}.
Proof.
  split.
  - intros Hrec.
    destruct (namedtuple "ReportRow" h) as [row_spec|] eqn:Hnt; [|done].
    apply namedtuple_Ok in Hnt as [Hvalid ->].
    apply make_Ok in Hrec as [Hlen ->].
    rewrite datarow_length, Nat2Z.id in Hlen. cbn [_fields] in Hlen.
    subst k. done.
  - intros (Hvalid & -> & ->). unfold namedtuple. rewrite Hvalid.
    apply make_Ok. split; [|done]. by rewrite datarow_length, Nat2Z.id.
Qed.

Lemma named_row_Raise self n m h (k : nat) e :
  (row_spec ← namedtuple "ReportRow" h;
   _make row_spec (datarow self n (Z.of_nat k))) = Raise e ->
  (row_spec ← namedtuple "ReportRow" h;
   _make row_spec (datarow self m (Z.of_nat k))) = Raise e.
Proof.
  destruct (namedtuple "ReportRow" h) as [row_spec|]; [|done].
  cbn [mbind result_bind]. unfold _make. rewrite !datarow_length.
  by case_bool_decide.
Qed.

(** A row that holds a cell is at most the last row of the sheet. *)
Lemma max_row_ge (ws : Worksheet.t) r c v :
  ws !! (r, c) = Some v -> r <= Worksheet.max_row ws.
Proof.
  unfold Worksheet.max_row. revert r c v.
  apply (map_fold_weak_ind
           (fun acc (m : Worksheet.t) =>
              forall r c v, m !! (r, c) = Some v -> r <= acc)).
  - intros r c v Hl. by rewrite lookup_empty in Hl.
  - intros i x m acc _ IH r c v Hl.
    destruct (decide (i = (r, c))) as [->|Hne]; [simpl; lia|].
    rewrite lookup_insert_ne in Hl by done.
    specialize (IH _ _ _ Hl). lia.
Qed.

Lemma mapM_result_inv {A B} (f : A -> result B) (l : list A) ys :
  mapM f l = Ok ys -> Forall2 (fun x y => f x = Ok y) l ys.
Proof.
  revert ys. induction l as [|x l IH]; intros ys; cbn [mapM].
  - intros [= <-]. constructor.
  - destruct (f x) as [y|] eqn:Hx; cbn [mbind result_bind]; [|done].
    destruct (mapM f l) as [ys'|]; cbn [mbind result_bind]; [|done].
    intros [= <-]. constructor; [done|]. by apply IH.
Qed.

Lemma concat_length_uniform {A} (k : nat) (ls : list (list A)) :
  Forall (fun l => length l = k) ls ->
  length (concat ls) = (length ls * k)%nat.
Proof.
  induction 1 as [|l ls Hl _ IH]; [done|].
  simpl. rewrite length_app, IH, Hl. done.
Qed.

(** With the row number 0 [iter_cols] reads all the rows of the sheet. *)
Lemma iter_cols_all_rows (ws : Worksheet.t) max_col cols :
  1 <= max_col ->
  Worksheet.iter_cols ws 0 1 0 max_col = Ok cols ->
  length (concat cols)
  = (Z.to_nat max_col * Z.to_nat (Worksheet.max_row ws))%nat.
Proof.
  intros Hcol. unfold Worksheet.iter_cols.
  rewrite bool_decide_eq_false_2 by (by intros (_ & ? & _)).
  unfold Worksheet.or_default.
  rewrite (bool_decide_eq_false_2 (1 = 0)) by done.
  rewrite (bool_decide_eq_true_2 (0 = 0)) by done.
  rewrite (bool_decide_eq_false_2 (max_col = 0)) by lia.
  intros Hall%mapM_result_inv.
  rewrite (concat_length_uniform (Z.to_nat (Worksheet.max_row ws))).
  - apply Forall2_length in Hall. rewrite length_seqZ in Hall.
    rewrite <- Hall. f_equal. lia.
  - eapply Forall2_Forall_r; [exact Hall|].
    apply Forall_forall. intros column _ col Hcolumn%mapM_result_inv.
    apply Forall2_length in Hcolumn. rewrite length_seqZ in Hcolumn.
    rewrite <- Hcolumn. lia.
Qed.

(** The header has at most 27 names. *)
Lemma header_row_short self h :
  _header_row self = Ok h -> (length h <= 27)%nat.
Proof.
  intros (code & count & names & b & e & bm & em
          & _ & Hin & Hcells & _ & _ & _ & _ & ->)%header_row_inv.
  pose proof (layouts_count _ _ Hin) as Hcount.
  assert (0 <= count) as Hpos by lia.
  pose proof (header_cells_length _ _ _ Hpos Hcells) as Hlen.
  destruct (slice_segment bm (em + 1) PERIODS) as (pre & post & Hseg).
  apply (f_equal length) in Hseg. rewrite !length_app in Hseg.
  change (length PERIODS) with 13%nat in Hseg.
  rewrite length_app, length_fmap. lia.
Qed.

(** With the row number 0, [get_row] reads the at least 11 columns of the at
    least 14 rows of the sheet, too many values for a record: it returns
    none. *)
Lemma get_row_zero self h rec :
  _header_row self = Ok h -> get_row self 0 <> Ok rec.
Proof.
  intros Hh Hrec.
  pose proof (header_row_short _ _ Hh) as Hshort.
  destruct (header_row_inv _ _ Hh)
    as (code & count & names & b & e & bm & em & _ & Hin & Hcells & _).
  pose proof (layouts_count _ _ Hin) as Hcount.
  destruct (textual_cells_found _ _ _ Hcells) as [Hfound Hmax]; [lia|].
  assert (14 <= Worksheet.max_row (_worksheet self)) as Hrows.
  { destruct (header_cells_text _ _ _ 1 Hcells) as [s Hs]; [lia|].
    unfold Worksheet.cell_value in Hs.
    destruct (_worksheet self !! (HEADER_ROW, 1)) as [v|] eqn:Hv; [|done].
    apply max_row_ge in Hv. exact Hv. }
  rewrite (get_row_steps _ _ _ _ Hh Hmax) in Hrec.
  revert Hfound Hrec. generalize (Z.of_nat (length (data_cols self))).
  intros max_col Hfound Hrec.
  destruct (namedtuple "ReportRow" h) as [row_spec|] eqn:Hnt; [|done].
  apply namedtuple_Ok in Hnt as [_ ->]. cbn [mbind result_bind] in Hrec.
  destruct (Worksheet.iter_cols _ _ _ _ _) as [cols|] eqn:Hcols; [|done].
  cbn [mbind result_bind] in Hrec. apply make_Ok in Hrec as [Hlen _].
  cbn [_fields] in Hlen. rewrite length_fmap in Hlen.
  assert (1 <= max_col) as Hpos by lia.
  rewrite (iter_cols_all_rows _ _ _ Hpos Hcols) in Hlen.
  nia.
Qed.

(** What a returned record tells about the report and the row number. *)
Lemma get_row_inv self n rec :
  get_row self n = Ok rec ->
  1 <= n <= 1048576
  /\ exists h,
       _header_row self = Ok h
       /\ valid_names "ReportRow" h = true
       /\ length (data_cols self) = length h
       /\ rec = {| type_of := {| typename := "ReportRow"; _fields := h |};
                   values := datarow self n (Z.of_nat (length h)) |}.
Proof.
  intros Hrec.
  destruct (_header_row self) as [h|e] eqn:Hh;
    [|by rewrite (get_row_header_Raise _ _ _ Hh) in Hrec].
  assert (1 <= n <= 1048576) as Hn.
  { destruct (decide (n = 0)) as [->|Hne]; [by destruct (get_row_zero _ _ _ Hh Hrec)|].
    destruct (decide (n < 0 \/ 1048576 < n)) as [Hout|Hin]; [|lia].
    by rewrite (get_row_out_of_range _ _ _ Hh Hout) in Hrec. }
  split; [done|].
  rewrite (get_row_derived _ _ _ Hh Hn) in Hrec.
  exists h. split; [done|]. exact (proj1 (named_row_Ok _ _ _ _ _) Hrec).
Qed.

(** With the row number 0 and a sheet whose rows end by 1048576, [get_row]
    extracts all the rows of the columns found. *)
Lemma iter_cols_zero_Ok (ws : Worksheet.t) max_col :
  1 <= max_col -> Worksheet.max_row ws <= 1048576 ->
  exists cols, Worksheet.iter_cols ws 0 1 0 max_col = Ok cols.
Proof.
  intros Hcol Hrows. unfold Worksheet.iter_cols.
  rewrite bool_decide_eq_false_2 by (by intros (_ & ? & _)).
  unfold Worksheet.or_default.
  rewrite (bool_decide_eq_false_2 (1 = 0)) by done.
  rewrite (bool_decide_eq_true_2 (0 = 0)) by done.
  rewrite (bool_decide_eq_false_2 (max_col = 0)) by lia.
  eexists.
  apply (mapM_result_Ok _
           (fun column => (fun row => Worksheet.cell_value ws row column)
                            <$> seqZ 1 (Worksheet.max_row ws - 1 + 1))).
  intros column [Hc _]%elem_of_seqZ.
  apply mapM_result_Ok. intros row Hrow%elem_of_seqZ.
  apply cell_in_range; lia.
Qed.

Lemma mapM_result_Raise {A B} (f : A -> result B) (l : list A) e x :
  (forall y, y ∈ l -> f y = Raise e \/ succeeds (f y)) ->
  x ∈ l -> f x = Raise e -> mapM f l = Raise e.
Proof.
  induction l as [|y l IH]; intros Hall Hin Hx; [by apply elem_of_nil in Hin|].
  cbn [mapM].
  destruct (Hall y) as [Hy|[b Hy]]; [by left| |]; rewrite Hy;
    cbn [mbind result_bind]; [done|].
  apply elem_of_cons in Hin as [->|Hin]; [congruence|].
  rewrite IH; [done| |done|done].
  intros z Hz. apply Hall. by right.
Qed.

(** With the row number 0 and a sheet that holds a row beyond 1048576, the
    sheet refuses that row. *)
Lemma iter_cols_zero_Raise (ws : Worksheet.t) max_col :
  1 <= max_col -> 1048576 < Worksheet.max_row ws ->
  Worksheet.iter_cols ws 0 1 0 max_col = Raise ValueError.
Proof.
  intros Hcol Hrows. unfold Worksheet.iter_cols.
  rewrite bool_decide_eq_false_2 by (by intros (_ & ? & _)).
  unfold Worksheet.or_default.
  rewrite (bool_decide_eq_false_2 (1 = 0)) by done.
  rewrite (bool_decide_eq_true_2 (0 = 0)) by done.
  rewrite (bool_decide_eq_false_2 (max_col = 0)) by lia.
  rewrite (seqZ_cons 1 (max_col - 1 + 1)) by lia. cbn [mapM].
  rewrite (mapM_result_Raise (fun row => Worksheet.cell ws row 1) _
             ValueError 1048577); [reflexivity| | |].
  - intros row [Hrow _]%elem_of_seqZ. unfold Worksheet.cell.
    rewrite bool_decide_eq_false_2 by lia.
    case_bool_decide; [right; by eexists | by left].
  - apply elem_of_seqZ. lia.
  - unfold Worksheet.cell. rewrite bool_decide_eq_false_2 by lia.
    by rewrite bool_decide_eq_false_2 by lia.
Qed.

(** What [get_row] does with the row number 0 when the names are accepted:
    too many values for the record, or a row the sheet refuses. *)
Lemma get_row_zero_outcome self h :
  _header_row self = Ok h -> valid_names "ReportRow" h = true ->
  (Worksheet.max_row (_worksheet self) <= 1048576 ->
   get_row self 0 = Raise TypeError)
  /\ (1048576 < Worksheet.max_row (_worksheet self) ->
      get_row self 0 = Raise ValueError).
Proof.
  intros Hh Hvalid.
  destruct (header_row_Ok_max_col _ _ Hh) as (max_col & Hpos & Hmax & _).
  rewrite (get_row_steps _ _ _ _ Hh Hmax). unfold namedtuple.
  rewrite Hvalid. cbn [mbind result_bind].
  split; intros Hrows.
  - destruct (iter_cols_zero_Ok _ _ Hpos Hrows) as [cols Hcols].
    destruct (_make {| typename := "ReportRow"; _fields := h |}
                (normalize <$> concat cols)) as [rec|e] eqn:Hmake.
    + exfalso. apply (get_row_zero self h rec Hh).
      rewrite (get_row_steps _ _ _ _ Hh Hmax). unfold namedtuple.
      rewrite Hvalid. cbn [mbind result_bind]. rewrite Hcols. exact Hmake.
    + rewrite Hcols. cbn [mbind result_bind]. rewrite Hmake.
      unfold _make in Hmake. by case_bool_decide.
  - by rewrite (iter_cols_zero_Raise _ _ Hpos Hrows).
Qed.






(** X13. For the row numbers of the sheet, from 1 to 1048576, whether
    [get_row] fails, and with which exception, does not depend on the row:
    a failure for one row is the same failure for every other, and a success
    for one is a success for every other. *)
Theorem get_row_outcome_row_independent self n m :
  1 <= n <= 1048576 -> 1 <= m <= 1048576 ->
  (forall e, get_row self n = Raise e -> get_row self m = Raise e)
  /\ (succeeds (get_row self n) -> succeeds (get_row self m)).
Proof.
  assert (forall n m e, 1 <= n <= 1048576 -> 1 <= m <= 1048576 ->
            get_row self n = Raise e -> get_row self m = Raise e)
    as Hfail.
  { clear n m. intros n m e Hn Hm.
    destruct (_header_row self) as [h|e'] eqn:Hh;
      [|rewrite !(get_row_header_Raise _ _ _ Hh); done].
    rewrite (get_row_derived _ _ _ Hh Hn), (get_row_derived _ _ _ Hh Hm).
    apply named_row_Raise. }
  intros Hn Hm. split; [intros e; by apply Hfail|].
  intros [rec Hrec]. destruct (get_row self m) as [rec'|e] eqn:Hrow; [by eexists|].
  rewrite (Hfail m n e Hm Hn Hrow) in Hrec. done.
Qed.

Lemma get_row_outcome_row_independent_witness :
  get_row Sample.j1_extra_column 1000 = Raise TypeError.
Proof.
  apply (get_row_outcome_row_independent Sample.j1_extra_column 15 1000);
    [lia | lia |].
  vm_compute. reflexivity.
Defined.

Lemma data_cols_elem self c :
  c ∈ data_cols self <-> 1 <= c <= Z.of_nat (length (data_cols self)).
Proof.
  destruct (data_cols_spec self) as (stop & Hrange & -> & _).
  change DATA_COL_START with 1 in *.
  rewrite elem_of_seqZ, length_seqZ. lia.
Qed.

Lemma datarow_cells self n max_col :
  datarow self n max_col
  = (fun c => normalize (Worksheet.cell_value (_worksheet self) n c))
      <$> seqZ 1 max_col.
Proof.
  reflexivity.
Qed.

(** X14. [get_row] does not check that the row holds data: for a row whose
    cells are blank in all the columns found, such as the row after the
    last data row, a sheet whose rows can be extracted yields the record of
    empty texts. *)
Theorem get_row_blank_row self n rec :
  get_row self n = Ok rec ->
  (forall c, c ∈ data_cols self ->
     Worksheet.cell_value (_worksheet self) n c = VNone) ->
  values rec = replicate (length (_fields (type_of rec))) EmptyString.
Proof.
  intros (_ & h & _ & _ & Hlen & ->)%get_row_inv Hblank.
  assert (forall c, 1 <= c <= Z.of_nat (length h) ->
            Worksheet.cell_value (_worksheet self) n c = VNone) as Hnone.
  { intros c Hc. apply Hblank, data_cols_elem. by rewrite Hlen. }
  clear Hblank Hlen. cbn [values type_of _fields].
  symmetry. apply replicate_as_Forall.
  split; [by rewrite datarow_length, Nat2Z.id|].
  rewrite datarow_cells. apply Forall_fmap, Forall_seqZ.
  intros c Hc. simpl. rewrite Hnone by lia. done.
Qed.

Lemma get_row_blank_row_witness :
  exists rec, get_row Sample.j1 21 = Ok rec
              /\ values rec = replicate 14 EmptyString.
Proof.
  assert (exists rec, get_row Sample.j1 21 = Ok rec) as [rec Hrec]
    by (eexists; vm_compute; reflexivity).
  exists rec. split; [exact Hrec|].
  assert (length (_fields (type_of rec)) = 14%nat) as <-.
  { vm_compute in Hrec. injection Hrec as <-. reflexivity. }
  apply (get_row_blank_row Sample.j1 21 rec Hrec).
  intros c [Hc1 Hc2]%data_cols_elem.
  assert (length (data_cols Sample.j1) = 14%nat) as Hcols
    by (vm_compute; reflexivity).
  rewrite Hcols in Hc2.
  assert (c = 1 \/ c = 2 \/ c = 3 \/ c = 4 \/ c = 5 \/ c = 6 \/ c = 7 \/ c = 8
          \/ c = 9 \/ c = 10 \/ c = 11 \/ c = 12 \/ c = 13 \/ c = 14)
    as [->|[->|[->|[->|[->|[->|[->|[->|[->|[->|[->|[->|[->| ->]]]]]]]]]]]]]
    by lia; reflexivity.
Defined.

Lemma remove_char_none c s : has_char c s = false -> remove_char c s = s.
Proof.
  induction s as [|a s IH]; simpl; [done|].
  intros [Ha Hs]%orb_false_iff. rewrite Ha. by rewrite (IH Hs).
Qed.

(** X15. A cell that is not blank and whose text has no double quote is
    extracted as it is: the value of its column is the text [str] gives. *)
Theorem get_row_verbatim self n rec c :
  get_row self n = Ok rec ->
  1 <= c <= Z.of_nat (length (values rec)) ->
  Worksheet.cell_value (_worksheet self) n c <> VNone ->
  has_char double_quote (str (Worksheet.cell_value (_worksheet self) n c))
  = false ->
  values rec !! Z.to_nat (c - 1)
  = Some (str (Worksheet.cell_value (_worksheet self) n c)).
Proof.
  intros (_ & h & _ & _ & _ & ->)%get_row_inv. cbn [values].
  rewrite datarow_length, Nat2Z.id. intros Hc Hcell Hquote.
  rewrite datarow_lookup by lia. f_equal.
  destruct (Worksheet.cell_value (_worksheet self) n c); try done;
    by apply remove_char_none.
Qed.

Lemma get_row_verbatim_witness :
  exists rec, get_row Sample.j1 17 = Ok rec
              /\ values rec !! 0%nat = Some "Brain"
              /\ values rec !! 10%nat = Some "3".
Proof.
  assert (exists rec, get_row Sample.j1 17 = Ok rec) as [rec Hrec]
    by (eexists; vm_compute; reflexivity).
  exists rec. split; [exact Hrec|].
  assert (length (values rec) = 14%nat) as Hlen.
  { vm_compute in Hrec. injection Hrec as <-. reflexivity. }
  split.
  - apply (get_row_verbatim Sample.j1 17 rec 1 Hrec);
      [rewrite Hlen; lia | vm_compute; discriminate | vm_compute; reflexivity].
  - apply (get_row_verbatim Sample.j1 17 rec 11 Hrec);
      [rewrite Hlen; lia | vm_compute; discriminate | vm_compute; reflexivity].
Defined.

Lemma valid_names_empty_name name h :
  EmptyString ∈ h -> valid_names name h = false.
Proof.
  intros Hin. unfold valid_names.
  destruct (forallb _ (name :: h)) eqn:Hall; [|done].
  rewrite forallb_forall in Hall.
  specialize (Hall EmptyString). simpl in Hall.
  discriminate Hall. right. by apply list_elem_of_In.
Qed.

(** X16. When the begin month is written 00 and the end month is an integer
    that is not negative, the derived header takes the unused first entry of
    the month table, the empty text, as a name; [namedtuple] refuses it, so
    [get_row] raises [ValueError] for every row. *)
Theorem get_row_month_zero self h b e em n :
  _header_row self = Ok h ->
  begin_date self = Ok b -> parse_int (str_slice 5 7 b) = Some 0 ->
  end_date self = Ok e -> parse_int (str_slice 5 7 e) = Some em ->
  0 <= em ->
  EmptyString ∈ h /\ get_row self n = Raise ValueError.
Proof.
  intros Hh Hb Hbm He Hem Hpos.
  assert (EmptyString ∈ h) as Hin.
  { destruct (header_row_inv _ _ Hh)
      as (code & count & names & b' & e' & bm' & em'
          & _ & _ & _ & Hb' & Hbm' & He' & Hem' & ->).
    assert (b' = b) as -> by congruence. assert (e' = e) as -> by congruence.
    assert (bm' = 0) as -> by congruence. assert (em' = em) as -> by congruence.
    apply elem_of_app. right.
    apply (list_elem_of_lookup_2 _ 0%nat).
    rewrite slice_lookup by lia. reflexivity. }
  split; [done|].
  apply (get_row_names_refused _ _ _ Hh), valid_names_empty_name, Hin.
Qed.

Lemma get_row_month_zero_witness :
  get_row (Sample.j1_with "TR_J1" "Begin_Date=2020-00-01; End_Date=2020-02-29") 15
  = Raise ValueError.
Proof.
  apply (get_row_month_zero
           (Sample.j1_with "TR_J1" "Begin_Date=2020-00-01; End_Date=2020-02-29")
           ((lower <$> Sample.j1_ids) ++ [EmptyString; "jan"; "feb"])%list
           "2020-00-01" "2020-02-29" 2 15); try reflexivity.
  lia.
Defined.

End RowsOutcome.

(** ** Properties of the loader script *)

Section Loader.

Import Jr1Loader.

Context `{Collaborators}.

Implicit Types (w : world) (files : list string) (platform : PlatformObject).

Lemma append_assoc (a b c : string) :
  ((a ++ b) ++ c)%string = (a ++ (b ++ c))%string.
Proof.
  induction a as [|x a IH]; [done|].
  change (String x ((a ++ b) ++ c)%string = String x (a ++ (b ++ c))%string).
  by rewrite IH.
Qed.

Lemma process_file_stdout platform w f :
  stdout (process_file platform w f)
  = (stdout w ++ (("Processing " ++ f) ++ newline))%string.
Proof.
  unfold process_file. cbn [print env stdout].
  destruct (try_load platform f (env w)) as [e1 [exc|[]]]; reflexivity.
Qed.

Lemma process_file_env platform w f :
  env (process_file platform w f) = (try_load platform f (env w)).1.
Proof.
  unfold process_file. cbn [print env stdout].
  destruct (try_load platform f (env w)) as [e1 [exc|[]]]; reflexivity.
Qed.

Lemma process_file_log platform w f :
  errors_log (process_file platform w f)
  = match (try_load platform f (env w)).2 with
    | inl exc => (errors_log w ++ (error_message f exc ++ newline))%string
    | inr _ => errors_log w
    end.
Proof.
  unfold process_file. cbn [print env stdout errors_log].
  destruct (try_load platform f (env w)) as [e1 [exc|[]]]; reflexivity.
Qed.

(** The three parts of the state of the script evolve side by side. *)
Lemma process_files_spec platform files w :
  stdout (foldl (process_file platform) w files)
  = (stdout w ++ lines ((fun f => "Processing " ++ f)%string <$> files))%string
  /\ errors_log (foldl (process_file platform) w files)
     = (errors_log w
        ++ lines ((fun fe => error_message fe.1 fe.2)
                    <$> failures platform files (env w)))%string
  /\ env (foldl (process_file platform) w files)
     = env_after platform files (env w).
Proof.
  revert w. induction files as [|f files IH]; intros w.
  - cbn [foldl fmap list_fmap failures lines foldr env_after].
    by rewrite !append_empty_r.
  - cbn [foldl].
    destruct (IH (process_file platform w f)) as (Hout & Hlog & Henv).
    rewrite Hout, Hlog, Henv.
    rewrite process_file_stdout, process_file_log, process_file_env.
    split; [|split].
    + rewrite fmap_cons. cbn [lines foldr]. by rewrite !append_assoc.
    + cbn [failures].
      destruct (try_load platform f (env w)) as [e1 [exc|u]]; cbn [fst snd];
        [|done].
      rewrite fmap_cons. cbn [lines foldr fst snd]. by rewrite !append_assoc.
    + reflexivity.
Qed.

(** The script once the module is loaded and [platform] is made. *)
Lemma main_started argv w e1 platform :
  startup (env w) = (e1, inr platform) ->
  main argv w
  = if bool_decide (length argv = 1%nat)
    then (print usage (with_env w e1), inr tt)
    else match index argv 1 with
         | Raise e => (with_env w e1, inl (FromScript e))
         | Ok jr1dir =>
             (foldl (process_file platform) (with_env w e1)
                (glob (jr1dir ++ "/*.xlsx")%string e1), inr tt)
         end.
Proof. intros Hstart. unfold main. by rewrite Hstart. Qed.

Lemma main_directory prog dir rest w e1 platform :
  startup (env w) = (e1, inr platform) ->
  main (prog :: dir :: rest) w
  = (foldl (process_file platform) (with_env w e1)
       (glob (dir ++ "/*.xlsx")%string e1), inr tt).
Proof. intros Hstart. by rewrite (main_started _ _ _ _ Hstart). Qed.



Lemma lines_empty (l : list string) : lines l = EmptyString -> l = [].
Proof.
  destruct l as [|s l]; [done|]. cbn [lines foldr]. intros Hl.
  apply (f_equal String.length) in Hl. revert Hl.
  generalize (foldr (fun s acc => (s ++ (newline ++ acc))%string) EmptyString l).
  intros acc. induction s as [|c s IH]; [done|].
  change (S (String.length (s ++ (newline ++ acc))%string) = 0%nat
          -> String c s :: l = []).
  done.
Qed.


End Loader.



